(** * AIR-assist: session coordination layer

    A shallow embedding of the parts of the AIR-assist client that carry
    its coordination logic, and the properties established about them:

    - [PermissionsService] (src/services/PermissionsService.js): the
      permission checks;
    - [BluetoothContext]  (src/context/BluetoothContext.js): start-up,
      scanning, device history, connect and disconnect;
    - [WebSocketService]  (src/services/WebSocketService.js): keepalive,
      reconnection and [send];
    - [AppContext]        (src/context/AppContext.js): conversation log,
      offline queue and its draining;
    - [AudioService]      (src/services/AudioService.js): the silence
      timer of a recording;
    - [AudioModule]       (android/.../modules/AudioModule.kt): the WAV
      container written when a capture is finalised, and native playback.

    Conventions.  React state is threaded explicitly: a function of a
    provider receives the state of the render it was created in and
    returns the state after its setters have run, in order.  Calls into
    the platform (BLE manager, storage, socket, clock) are resolved by an
    explicit environment or argument that says how each call ends.
    [Date.now()] is an argument: the reading of the clock at that call. *)

From Stdlib Require Import ZArith List String Ascii Bool Lia QArith DecimalString.
From Stdlib Require DecimalZ DecimalPos.
Import ListNotations.

Local Open Scope string_scope.
Local Open Scope list_scope.
Local Open Scope Z_scope.

(** How a call into the platform ends: a promise resolves or rejects. *)
Inductive outcome : Type :=
| Resolves
| Rejects (message : string).

(** The result of an async function of the program. *)
Inductive result (A : Type) : Type :=
| Resolved (value : A)
| Rejected (message : string).
Arguments Resolved {A} value.
Arguments Rejected {A} message.

(** ** src/utils/constants.js *)
Module Constants.

Inductive BT_CONNECTION_STATES : Type :=
| DISCONNECTED
| CONNECTING
| CONNECTED
| SCANNING
| ERROR.

Module TIME.
Definition WEBSOCKET_RECONNECT_INTERVAL : Z := 5000.
Definition BLE_SCAN_TIMEOUT : Z := 10000.
Definition SILENCE_DETECTION_TIMEOUT : Z := 2000.
End TIME.

Module WS_MESSAGE_TYPES.
Definition AUDIO : string := "audioMessage".
Definition TEXT : string := "textMessage".
Definition AI_RESPONSE : string := "aiResponse".
Definition ERROR : string := "error".
Definition PING : string := "ping".
Definition PONG : string := "pong".
End WS_MESSAGE_TYPES.

End Constants.

(** ** src/services/PermissionsService.js *)
Module PermissionsService.

(** [Platform.OS] *)
Inductive OS : Type :=
| android
| ios
| otherOS.

(** The permissions of the permissions library that the service names. *)
Inductive permission : Type :=
| ANDROID_RECORD_AUDIO
| ANDROID_BLUETOOTH_CONNECT
| ANDROID_BLUETOOTH_SCAN
| ANDROID_ACCESS_FINE_LOCATION
| IOS_MICROPHONE
| IOS_BLUETOOTH_PERIPHERAL.

(** [RESULTS] of the permissions library. *)
Inductive RESULTS : Type :=
| UNAVAILABLE
| DENIED
| LIMITED
| GRANTED
| BLOCKED.

(** [checkPermission]; the library's [check] answers or throws
    ([None]). *)
Definition checkPermission (check : permission -> option RESULTS)
           (p : permission) : bool :=
  match check p with
  | Some GRANTED => true
  | Some LIMITED => true
  | _ => false
  end.

(** The answers of [check] that count as granted. *)
Definition allowed (r : option RESULTS) : Prop :=
  r = Some GRANTED \/ r = Some LIMITED.

(** [hasMicrophonePermission] *)
Definition hasMicrophonePermission (os : OS)
           (check : permission -> option RESULTS) : bool :=
  match os with
  | android => checkPermission check ANDROID_RECORD_AUDIO
  | ios => checkPermission check IOS_MICROPHONE
  | otherOS => false
  end.

(** [hasBluetoothPermissions] *)
Definition hasBluetoothPermissions (os : OS)
           (check : permission -> option RESULTS) : bool :=
  match os with
  | android =>
      let results := [checkPermission check ANDROID_BLUETOOTH_CONNECT;
                      checkPermission check ANDROID_BLUETOOTH_SCAN] in
      forallb (fun result => Bool.eqb result true) results
  | ios => checkPermission check IOS_BLUETOOTH_PERIPHERAL
  | otherOS => false
  end.

(** [hasLocationPermission] *)
Definition hasLocationPermission (os : OS)
           (check : permission -> option RESULTS) : bool :=
  match os with
  | android => checkPermission check ANDROID_ACCESS_FINE_LOCATION
  | _ => true
  end.

End PermissionsService.

(** ** src/context/BluetoothContext.js *)
Module BluetoothContext.
Import Constants.

Record Device : Type := mkDevice {
  id : string;
  name : string;
  rssi : Z
}.

(** The provider's [useState] cells, and the record kept under
    [STORAGE_KEYS.BLUETOOTH_DEVICES]. *)
Record state : Type := mkState {
  isBluetoothEnabled : bool;
  isInitialized : bool;
  isScanning : bool;
  connectionState : BT_CONNECTION_STATES;
  error : option string;
  discoveredDevices : list Device;
  connectedDevice : option Device;
  previousDevices : list Device;
  storedDevices : option (list Device)
}.

(** How the platform answers during one operation. *)
Record platform : Type := mkPlatform {
  BleManager_stopScan : outcome;
  BleManager_connect : outcome;
  BleManager_retrieveServices : outcome;
  BleManager_disconnect : outcome;
  AsyncStorage_setItem : outcome
}.

Definition setIsScanning (v : bool) (s : state) : state :=
  mkState (isBluetoothEnabled s) (isInitialized s) v (connectionState s)
          (error s) (discoveredDevices s) (connectedDevice s)
          (previousDevices s) (storedDevices s).

Definition setConnectionState (v : BT_CONNECTION_STATES) (s : state) : state :=
  mkState (isBluetoothEnabled s) (isInitialized s) (isScanning s) v
          (error s) (discoveredDevices s) (connectedDevice s)
          (previousDevices s) (storedDevices s).

Definition setError (v : option string) (s : state) : state :=
  mkState (isBluetoothEnabled s) (isInitialized s) (isScanning s)
          (connectionState s) v (discoveredDevices s) (connectedDevice s)
          (previousDevices s) (storedDevices s).

Definition setConnectedDevice (v : option Device) (s : state) : state :=
  mkState (isBluetoothEnabled s) (isInitialized s) (isScanning s)
          (connectionState s) (error s) (discoveredDevices s) v
          (previousDevices s) (storedDevices s).

Definition setPreviousDevices (v : list Device) (s : state) : state :=
  mkState (isBluetoothEnabled s) (isInitialized s) (isScanning s)
          (connectionState s) (error s) (discoveredDevices s)
          (connectedDevice s) v (storedDevices s).

Definition setStoredDevices (v : list Device) (s : state) : state :=
  mkState (isBluetoothEnabled s) (isInitialized s) (isScanning s)
          (connectionState s) (error s) (discoveredDevices s)
          (connectedDevice s) (previousDevices s) (Some v).

(** [saveDeviceToHistory]: [render] is the state the closure reads,
    [s] the state its setters act on. *)
Definition saveDeviceToHistory (p : platform) (device : Device)
           (render s : state) : state :=
  let updatedDevices :=
    filter (fun d => negb (id d =? id device)%string) (previousDevices render) in
  let newDevicesList := firstn 10 (device :: updatedDevices) in
  let s1 := setPreviousDevices newDevicesList s in
  match AsyncStorage_setItem p with
  | Resolves => setStoredDevices newDevicesList s1
  | Rejects _ => s1
  end.

Definition stopScan (p : platform) (render s : state) : state :=
  if negb (isScanning render) then s
  else
    match BleManager_stopScan p with
    | Resolves =>
        let s1 := setIsScanning false s in
        match connectedDevice render with
        | Some _ => setConnectionState CONNECTED s1
        | None => setConnectionState DISCONNECTED s1
        end
    | Rejects _ =>
        setError (Some "Failed to stop scanning") (setIsScanning false s)
    end.

(** The [catch] block of [connectToDevice]. *)
Definition connectFailed (message : string) (s : state)
  : state * result Device :=
  (setConnectionState ERROR
     (setError (Some ("Failed to connect to device: " ++ message)%string) s),
   Rejected message).

Definition connectToDevice (p : platform) (deviceId : string) (render : state)
  : state * result Device :=
  if negb (isBluetoothEnabled render) || negb (isInitialized render)
  then (render, Rejected "Bluetooth is not available")
  else
    let s1 := setError None (setConnectionState CONNECTING render) in
    let s2 := if isScanning render then stopScan p render s1 else s1 in
    match find (fun d => (id d =? deviceId)%string)
               (discoveredDevices render ++ previousDevices render) with
    | None => connectFailed "Device not found" s2
    | Some device =>
        match BleManager_connect p with
        | Rejects m => connectFailed m s2
        | Resolves =>
            match BleManager_retrieveServices p with
            | Rejects m => connectFailed m s2
            | Resolves =>
                let s3 := setConnectionState CONNECTED
                            (setConnectedDevice (Some device) s2) in
                (saveDeviceToHistory p device render s3, Resolved device)
            end
        end
    end.

(** [!deviceId || !connectedDevice || connectedDevice.id !== deviceId] *)
Definition notCurrentDevice (deviceId : string) (render : state) : bool :=
  (deviceId =? "")%string
  || match connectedDevice render with
     | None => true
     | Some d => negb (id d =? deviceId)%string
     end.

Definition disconnectFromDevice (p : platform) (deviceId : string)
           (render : state) : state :=
  if notCurrentDevice deviceId render then render
  else
    match BleManager_disconnect p with
    | Resolves =>
        setConnectionState DISCONNECTED (setConnectedDevice None render)
    | Rejects _ =>
        setConnectionState DISCONNECTED
          (setConnectedDevice None
             (setError (Some "Failed to disconnect from device") render))
    end.

(** A sequence of calls made by the screens, each on the state the
    previous one left. *)
Inductive call : Type :=
| Connect (p : platform) (deviceId : string)
| Disconnect (p : platform) (deviceId : string).

(** One call; the device is returned when a connect resolved. *)
Definition perform (c : call) (s : state) : state * option Device :=
  match c with
  | Connect p deviceId =>
      match connectToDevice p deviceId s with
      | (s', Resolved d) => (s', Some d)
      | (s', Rejected _) => (s', None)
      end
  | Disconnect p deviceId => (disconnectFromDevice p deviceId s, None)
  end.

(** Runs the calls in order; also returns, oldest first, the devices
    of the connects that resolved. *)
Fixpoint run (cs : list call) (s : state) : state * list Device :=
  match cs with
  | [] => (s, [])
  | c :: rest =>
      let '(s1, d) := perform c s in
      let '(s2, ds) := run rest s1 in
      (s2, match d with Some x => x :: ds | None => ds end)
  end.

(** Most recently used first: the distinct ids of [connects] (oldest
    first), latest occurrence kept, newest in front. *)
Definition mostRecentFirst (connects : list string) : list string :=
  rev (nodup string_dec connects).

(** The test [d.id !== x] of [saveDeviceToHistory], on ids. *)
Definition differs (x : string) : string -> bool :=
  fun y => negb (y =? x)%string.

(** *** The rest of the provider *)

Definition setIsBluetoothEnabled (v : bool) (s : state) : state :=
  mkState v (isInitialized s) (isScanning s) (connectionState s)
          (error s) (discoveredDevices s) (connectedDevice s)
          (previousDevices s) (storedDevices s).

Definition setIsInitialized (v : bool) (s : state) : state :=
  mkState (isBluetoothEnabled s) v (isScanning s) (connectionState s)
          (error s) (discoveredDevices s) (connectedDevice s)
          (previousDevices s) (storedDevices s).

Definition setDiscoveredDevices (v : list Device) (s : state) : state :=
  mkState (isBluetoothEnabled s) (isInitialized s) (isScanning s)
          (connectionState s) (error s) v (connectedDevice s)
          (previousDevices s) (storedDevices s).

(** The provider as first rendered, over what storage holds. *)
Definition mounted (stored : option (list Device)) : state :=
  mkState false false false DISCONNECTED None [] None [] stored.

(** [initializeBluetooth]; [start] and [checkState] say how the two
    calls into the BLE manager end, the latter with the state it
    reports. *)
Definition initializeBluetooth (os : PermissionsService.OS)
           (check : PermissionsService.permission
                    -> option PermissionsService.RESULTS)
           (start : outcome) (checkState : result string) (s : state) : state :=
  if negb (PermissionsService.hasBluetoothPermissions os check)
  then setConnectionState ERROR
         (setError (Some "Bluetooth permissions not granted") s)
  else
    match start, checkState with
    | Resolves, Resolved enabled =>
        setIsInitialized true
          (setIsBluetoothEnabled (enabled =? "on")%string s)
    | _, _ =>
        setConnectionState ERROR
          (setError (Some "Failed to initialize Bluetooth") s)
    end.

(** [connectToDevice] as a closure of the render [render] whose setters
    act on [s]; the two are the same state when the screens call it. *)
Definition connectToDeviceIn (p : platform) (deviceId : string)
           (render s : state) : state * result Device :=
  if negb (isBluetoothEnabled render) || negb (isInitialized render)
  then (s, Rejected "Bluetooth is not available")
  else
    let s1 := setError None (setConnectionState CONNECTING s) in
    let s2 := if isScanning render then stopScan p render s1 else s1 in
    match find (fun d => (id d =? deviceId)%string)
               (discoveredDevices render ++ previousDevices render) with
    | None => connectFailed "Device not found" s2
    | Some device =>
        match BleManager_connect p with
        | Rejects m => connectFailed m s2
        | Resolves =>
            match BleManager_retrieveServices p with
            | Rejects m => connectFailed m s2
            | Resolves =>
                let s3 := setConnectionState CONNECTED
                            (setConnectedDevice (Some device) s2) in
                (saveDeviceToHistory p device render s3, Resolved device)
            end
        end
    end.

(** [loadPreviousDevices], called from the effect of the first render
    [render]; [getItem] says how the read of storage ends. *)
Definition loadPreviousDevices (getItem : outcome) (p : platform)
           (render s : state) : state :=
  match getItem with
  | Rejects _ => s
  | Resolves =>
      match storedDevices s with
      | None => s
      | Some parsedDevices =>
          let s1 := setPreviousDevices parsedDevices s in
          match parsedDevices with
          | lastDevice :: _ =>
              if isBluetoothEnabled render && isInitialized render
              then fst (connectToDeviceIn p (id lastDevice) render s1)
              else s1
          | [] => s1
          end
      end
  end.

(** The devices the scan is made to find. *)
Definition exampleDevices : list Device :=
  [mkDevice "DE:AD:BE:EF:12:34" "AIR-Headset" (-65);
   mkDevice "C0:FF:EE:00:00:01" "BT Earbuds" (-72)].

(** [startScan]; [scan] says how [BleManager.scan] ends.  The boolean
    tells whether the two timers were set. *)
Definition startScan (scan : outcome) (render : state) : state * bool :=
  if negb (isBluetoothEnabled render) || negb (isInitialized render)
  then (setError (Some "Bluetooth is not available") render, false)
  else if isScanning render then (render, false)
  else
    let s1 := setConnectionState SCANNING
                (setIsScanning true
                   (setError None (setDiscoveredDevices [] render))) in
    match scan with
    | Resolves => (s1, true)
    | Rejects _ =>
        (setConnectionState ERROR
           (setIsScanning false
              (setError (Some "Failed to scan for devices") s1)), false)
    end.

(** The callback of the 3000 ms timer of [startScan]; like the next one
    it is a closure of the render [startScan] was called in. *)
Definition scanResultsArrive (p : platform) (render s : state) : state :=
  stopScan p render (setDiscoveredDevices exampleDevices s).

(** The callback of the [TIME.BLE_SCAN_TIMEOUT] timer of [startScan]. *)
Definition scanTimeoutFires (p : platform) (render s : state) : state :=
  if isScanning render then stopScan p render s else s.

(** [sendDataToDevice]; [write] says how the write to the device ends. *)
Definition sendDataToDevice (write : outcome) (render : state)
  : state * result unit :=
  match connectedDevice render with
  | None => (render, Rejected "No device connected")
  | Some _ =>
      match write with
      | Resolves => (render, Resolved tt)
      | Rejects m =>
          (setError (Some "Failed to send data to device") render, Rejected m)
      end
  end.

(** [readDataFromDevice]; [read] is the data read, or the error. *)
Definition readDataFromDevice (read : result (list Z)) (render : state)
  : state * result (list Z) :=
  match connectedDevice render with
  | None => (render, Rejected "No device connected")
  | Some _ =>
      match read with
      | Resolved data => (render, Resolved data)
      | Rejected m =>
          (setError (Some "Failed to read data from device") render, Rejected m)
      end
  end.

(** The provider after the app was closed and opened again: first
    render, storage as it was left. *)
Definition restarted (s : state) : state := mounted (storedDevices s).

(** Storage holds the history of the state (nothing stored counts for
    the empty history). *)
Definition inSync (s : state) : Prop :=
  storedDevices s = Some (previousDevices s)
  \/ (storedDevices s = None /\ previousDevices s = []).

(** Storage takes every write of the call. *)
Definition storageUp (c : call) : Prop :=
  match c with
  | Connect p _ => AsyncStorage_setItem p = Resolves
  | Disconnect _ _ => True
  end.

End BluetoothContext.

(** ** Timers of the JavaScript runtime

    A handle returned by [setTimeout]: the time at which the callback is
    due and whether it is still pending.  A handle that fired stays in
    the variable that holds it, no longer pending. *)
Record timeout : Type := mkTimeout {
  due : Z;
  pending : bool
}.

Definition setTimeout (now delay : Z) : timeout := mkTimeout (now + delay) true.

(** The handle fires when time reaches [t]. *)
Definition fires (t : Z) (h : option timeout) : bool :=
  match h with
  | Some h => pending h && (due h <=? t)
  | None => false
  end.

Definition fired (h : option timeout) : option timeout :=
  match h with
  | Some h => Some (mkTimeout (due h) false)
  | None => None
  end.

(** ** src/services/WebSocketService.js *)
Module WebSocketService.
Import Constants.

(** Outbound wire messages, before [JSON.stringify]. *)
Inductive outbound : Type :=
| audioMessage (audio transcription userId userName voice : string)
               (timestamp : Z) (messageId : string)
| textMessage (text userId userName voice : string)
              (timestamp : Z) (messageId : string)
| ping.

(** Inbound frames, by what [JSON.parse] makes of them: text it
    rejects, the three messages the client handles, or any other JSON
    value, with its [type] when it has one. *)
Inductive inbound : Type :=
| unparsable
| aiResponse (text : string) (audioBase64 transcription messageId : option string)
| pong
| errorMessage (message : string)
| otherJson (type : option string).

(** [data && data.type] *)
Definition typeOf (m : inbound) : option string :=
  match m with
  | unparsable => None
  | aiResponse _ _ _ _ => Some WS_MESSAGE_TYPES.AI_RESPONSE
  | pong => Some WS_MESSAGE_TYPES.PONG
  | errorMessage _ => Some WS_MESSAGE_TYPES.ERROR
  | otherJson ty => ty
  end.

Inductive readyState : Type :=
| WS_CONNECTING
| WS_OPEN
| WS_CLOSING
| WS_CLOSED.

(** The platform socket: its url, its state, whether the service's
    handlers are attached, and the frames it was handed. *)
Record WebSocket : Type := mkWebSocket {
  socketUrl : string;
  state : readyState;
  handlers : bool;
  handed : list outbound
}.

(** The static fields of the class; [retired] keeps the sockets the
    service has let go of, newest first. *)
Record service : Type := mkService {
  socket : option WebSocket;
  url : option string;
  connected : bool;
  connecting : bool;
  reconnectTimeout : option timeout;
  pingInterval : option Z;
  lastPingTime : option Z;
  onConnectCallback : bool;
  onDisconnectCallback : bool;
  onMessageCallback : bool;
  onErrorCallback : bool;
  retired : list WebSocket
}.

(** What the service tells its callbacks during a handler. *)
Inductive notification : Type :=
| NotifyConnect
| NotifyDisconnect
| NotifyMessage (m : inbound)
| NotifyError.

Definition isOpen (s : service) : bool :=
  match socket s with
  | Some ws => match state ws with WS_OPEN => true | _ => false end
  | None => false
  end.

Definition withSocket (v : option WebSocket) (s : service) : service :=
  mkService v (url s) (connected s) (connecting s) (reconnectTimeout s)
            (pingInterval s) (lastPingTime s) (onConnectCallback s)
            (onDisconnectCallback s) (onMessageCallback s) (onErrorCallback s)
            (retired s).

Definition withUrl (v : option string) (s : service) : service :=
  mkService (socket s) v (connected s) (connecting s) (reconnectTimeout s)
            (pingInterval s) (lastPingTime s) (onConnectCallback s)
            (onDisconnectCallback s) (onMessageCallback s) (onErrorCallback s)
            (retired s).

Definition withConnected (v : bool) (s : service) : service :=
  mkService (socket s) (url s) v (connecting s) (reconnectTimeout s)
            (pingInterval s) (lastPingTime s) (onConnectCallback s)
            (onDisconnectCallback s) (onMessageCallback s) (onErrorCallback s)
            (retired s).

Definition withConnecting (v : bool) (s : service) : service :=
  mkService (socket s) (url s) (connected s) v (reconnectTimeout s)
            (pingInterval s) (lastPingTime s) (onConnectCallback s)
            (onDisconnectCallback s) (onMessageCallback s) (onErrorCallback s)
            (retired s).

Definition withReconnectTimeout (v : option timeout) (s : service) : service :=
  mkService (socket s) (url s) (connected s) (connecting s) v
            (pingInterval s) (lastPingTime s) (onConnectCallback s)
            (onDisconnectCallback s) (onMessageCallback s) (onErrorCallback s)
            (retired s).

Definition withPingInterval (v : option Z) (s : service) : service :=
  mkService (socket s) (url s) (connected s) (connecting s) (reconnectTimeout s)
            v (lastPingTime s) (onConnectCallback s)
            (onDisconnectCallback s) (onMessageCallback s) (onErrorCallback s)
            (retired s).

Definition withLastPingTime (v : option Z) (s : service) : service :=
  mkService (socket s) (url s) (connected s) (connecting s) (reconnectTimeout s)
            (pingInterval s) v (onConnectCallback s)
            (onDisconnectCallback s) (onMessageCallback s) (onErrorCallback s)
            (retired s).

Definition withRetired (v : list WebSocket) (s : service) : service :=
  mkService (socket s) (url s) (connected s) (connecting s) (reconnectTimeout s)
            (pingInterval s) (lastPingTime s) (onConnectCallback s)
            (onDisconnectCallback s) (onMessageCallback s) (onErrorCallback s)
            v.

(** The class as loaded: every static field at its initial value. *)
Definition initial : service :=
  mkService None None false false None None None false false false false [].

(** [disconnect]: flags down, timers cleared, the socket stripped of
    its handlers, closed if it was open, and dropped. *)
Definition disconnect (s : service) : service :=
  let s1 := withConnecting false (withConnected false s) in
  let s2 := withReconnectTimeout None s1 in
  let s3 := withPingInterval None s2 in
  match socket s3 with
  | Some ws =>
      let closed :=
        mkWebSocket (socketUrl ws)
                    (match state ws with WS_OPEN => WS_CLOSING | st => st end)
                    false (handed ws) in
      withRetired (closed :: retired s3) (withSocket None s3)
  | None => s3
  end.

(** [scheduleReconnect] *)
Definition scheduleReconnect (now : Z) (s : service) : service :=
  withReconnectTimeout
    (Some (setTimeout now TIME.WEBSOCKET_RECONNECT_INTERVAL)) s.

(** [!this.url] *)
Definition noUrl (s : service) : bool :=
  match url s with
  | None => true
  | Some u => (u =? "")%string
  end.

(** [connect]; [construct] says whether [new WebSocket(url)] returns
    or throws. *)
Definition connect (now : Z) (construct : outcome) (s : service) : service :=
  if connecting s || noUrl s then s
  else
    let s1 := withConnecting true (disconnect s) in
    match construct, url s1 with
    | Resolves, Some u =>
        withSocket (Some (mkWebSocket u WS_CONNECTING true [])) s1
    | _, _ => scheduleReconnect now (withConnecting false s1)
    end.

(** [startPingInterval]: an interval already held is replaced; the new
    one first fires 30000 ms from now. *)
Definition startPingInterval (now : Z) (s : service) : service :=
  withPingInterval (Some (now + 30000)) (withLastPingTime (Some now) s).

(** [this.lastPingTime && now - this.lastPingTime > 60000] *)
Definition unresponsive (now : Z) (s : service) : bool :=
  match lastPingTime s with
  | Some t => negb (t =? 0) && (60000 <? now - t)
  | None => false
  end.

Definition hand (m : outbound) (ws : WebSocket) : WebSocket :=
  mkWebSocket (socketUrl ws) (state ws) (handlers ws) (handed ws ++ [m]).

(** The callback given to [setInterval], run at time [now];
    [socketSend] says whether [socket.send] returns or throws (the
    callback has no handler of its own for that). *)
Definition pingIntervalFires (now : Z) (socketSend construct : outcome)
           (s : service) : service :=
  let s0 := withPingInterval (Some (now + 30000)) s in
  match socket s0 with
  | Some ws =>
      match state ws, socketSend with
      | WS_OPEN, Resolves =>
          let s1 := withSocket (Some (hand ping ws)) s0 in
          if unresponsive now s1
          then connect now construct (disconnect s1)
          else s1
      | _, _ => s0
      end
  | None => s0
  end.

(** [handleOpen] *)
Definition handleOpen (now : Z) (s : service) : service * list notification :=
  let s1 := withConnecting false (withConnected true s) in
  let s2 := startPingInterval now s1 in
  (s2, if onConnectCallback s2 then [NotifyConnect] else []).

(** [handleMessage]: the callback first, then the pong check. *)
Definition handleMessage (now : Z) (m : inbound) (s : service)
  : service * list notification :=
  let notes := if onMessageCallback s then [NotifyMessage m] else [] in
  match typeOf m with
  | Some ty =>
      if (ty =? WS_MESSAGE_TYPES.PONG)%string
      then (withLastPingTime (Some now) s, notes)
      else (s, notes)
  | None => (s, notes)
  end.

(** Frames arriving one after the other, each at its own time. *)
Fixpoint receiveAll (ms : list (Z * inbound)) (s : service) : service :=
  match ms with
  | [] => s
  | (t, m) :: rest => receiveAll rest (fst (handleMessage t m s))
  end.

(** [handleError] *)
Definition handleError (s : service) : service * list notification :=
  (s, if onErrorCallback s then [NotifyError] else []).

(** [handleClose] *)
Definition handleClose (now : Z) (s : service) : service * list notification :=
  let s1 := withConnecting false (withConnected false s) in
  (scheduleReconnect now s1,
   if onDisconnectCallback s1 then [NotifyDisconnect] else []).

(** The callback given to [setTimeout] in [scheduleReconnect]. *)
Definition reconnectTimeoutFires (now : Z) (construct : outcome)
           (s : service) : service :=
  connect now construct (withReconnectTimeout (fired (reconnectTimeout s)) s).

(** [send] *)
Definition send (m : outbound) (socketSend : outcome) (s : service)
  : service * bool :=
  match socket s with
  | Some ws =>
      match state ws, socketSend with
      | WS_OPEN, Resolves => (withSocket (Some (hand m ws)) s, true)
      | _, _ => (s, false)
      end
  | None => (s, false)
  end.

(** [isConnected] *)
Definition isConnected (s : service) : bool := connected s && isOpen s.

(** [checkConnection] *)
Definition checkConnection (now : Z) (construct : outcome) (s : service)
  : service :=
  if connected s && negb (isOpen s)
  then connect now construct (withConnected false s)
  else s.

(** [init(url)], without the registration of the app state listener
    (which calls [checkConnection] when the app comes to the front). *)
Definition init (now : Z) (construct : outcome) (u : string) (s : service)
  : service :=
  let s1 := withUrl (Some u) s in
  match socket s1 with
  | Some sk =>
      if (socketUrl sk =? u)%string then s1 else connect now construct s1
  | None => connect now construct s1
  end.

(** Every frame the platform was handed, oldest first: those of the
    retired sockets, then those of the current one. *)
Definition transmitted (s : service) : list outbound :=
  List.concat (map handed (rev (retired s)))
  ++ match socket s with Some ws => handed ws | None => [] end.

(** *** Timelines and events *)

(** The reconnect timer set at [t] fires when due and the construction
    of the socket fails with [m], [n] times in a row. *)
Fixpoint failedAttempts (n : nat) (t : Z) (m : string) (s : service)
  : service :=
  match n with
  | O => s
  | S k =>
      failedAttempts k (t + TIME.WEBSOCKET_RECONNECT_INTERVAL) m
        (reconnectTimeoutFires (t + TIME.WEBSOCKET_RECONNECT_INTERVAL)
                               (Rejects m) s)
  end.

(** Rounds of the keepalive in which the peer answers: the timer runs
    30000 ms after the previous run (the first after [t]) and the pong
    arrives [delay] later, one delay per round. *)
Fixpoint answeredRounds (delays : list Z) (t : Z) (s : service) : service :=
  match delays with
  | [] => s
  | delay :: rest =>
      let s1 := pingIntervalFires (t + 30000) Resolves Resolves s in
      answeredRounds rest (t + 30000)
                     (fst (handleMessage (t + 30000 + delay) pong s1))
  end.

(** What can happen to the service: a call of one of its methods, an
    event of its socket, or one of its timers running. *)
Inductive event : Type :=
| callInit (u : string)
| callConnect
| callDisconnect
| callCheckConnection
| callSend (m : outbound)
| socketOpened
| socketMessage (m : inbound)
| socketError
| socketClosed
| pingTimer
| reconnectTimer.

(** An event with the time it happens at and the way the platform
    answers during it. *)
Record occurrence : Type := mkOccurrence {
  at_time : Z;
  construct : outcome;
  socketSend : outcome;
  what : event
}.

Definition setReadyState (st : readyState) (sk : WebSocket) : WebSocket :=
  mkWebSocket (socketUrl sk) st (handlers sk) (handed sk).

(** Socket events reach the service through the handlers it attached;
    a timer runs only while it is set. *)
Definition step (o : occurrence) (s : service) : service :=
  match what o with
  | callInit u => init (at_time o) (construct o) u s
  | callConnect => connect (at_time o) (construct o) s
  | callDisconnect => disconnect s
  | callCheckConnection => checkConnection (at_time o) (construct o) s
  | callSend m => fst (send m (socketSend o) s)
  | socketOpened =>
      match socket s with
      | Some sk =>
          if handlers sk
          then fst (handleOpen (at_time o)
                               (withSocket (Some (setReadyState WS_OPEN sk)) s))
          else s
      | None => s
      end
  | socketMessage m =>
      match socket s with
      | Some sk => if handlers sk then fst (handleMessage (at_time o) m s) else s
      | None => s
      end
  | socketError =>
      match socket s with
      | Some sk => if handlers sk then fst (handleError s) else s
      | None => s
      end
  | socketClosed =>
      match socket s with
      | Some sk =>
          if handlers sk
          then fst (handleClose (at_time o)
                                (withSocket (Some (setReadyState WS_CLOSED sk)) s))
          else s
      | None => s
      end
  | pingTimer =>
      match pingInterval s with
      | Some _ => pingIntervalFires (at_time o) (socketSend o) (construct o) s
      | None => s
      end
  | reconnectTimer =>
      if fires (at_time o) (reconnectTimeout s)
      then reconnectTimeoutFires (at_time o) (construct o) s
      else s
  end.

Fixpoint steps (os : list occurrence) (s : service) : service :=
  match os with
  | [] => s
  | o :: rest => steps rest (step o s)
  end.

(** The shape the fields of the service keep: the two flags are never
    both up; a flag is up only while a socket is held; the socket held
    has the handlers of the service; a socket let go of has none, and
    was not left open (its state is the one it was let go in). *)
Definition wellFormed (s : service) : Prop :=
  connected s && connecting s = false
  /\ (connected s || connecting s = true -> socket s <> None)
  /\ (forall sk, socket s = Some sk -> handlers sk = true)
  /\ Forall (fun sk => handlers sk = false /\ state sk <> WS_OPEN) (retired s).

End WebSocketService.

(** ** src/context/AppContext.js *)
Module AppContext.
Import WebSocketService.

Record Message : Type := mkMessage {
  id : string;
  text : string;
  isUser : bool;
  type : string;
  timestamp : Z
}.

(** An entry of [pendingMessages]: the audio shape, or the text shape
    (the one with [isText: true]). *)
Inductive PendingMessage : Type :=
| pendingAudio (audioBase64 transcription : string) (timestamp : Z)
               (messageId : string)
| pendingText (text : string) (timestamp : Z) (messageId : string).

(** The settings the provider reads. *)
Record Settings : Type := mkSettings {
  wsServerUrl : string;
  userId : option string;
  userName : string;
  aiVoice : string
}.

Definition DEFAULT_SETTINGS : Settings :=
  mkSettings "wss://airassist-server.example.com/ws" None "User" "default".

(** The provider's [useState] cells. *)
Record context : Type := mkContext {
  isOnline : bool;
  wsConnected : bool;
  settings : Settings;
  messages : list Message;
  isProcessingAudio : bool;
  pendingMessages : list PendingMessage;
  isSpeaking : bool;
  lastTranscription : string
}.

(** The provider together with the service it talks to. *)
Record world : Type := mkWorld {
  app : context;
  ws : service
}.

Definition setWsConnected (v : bool) (c : context) : context :=
  mkContext (isOnline c) v (settings c) (messages c) (isProcessingAudio c)
            (pendingMessages c) (isSpeaking c) (lastTranscription c).

Definition setMessages (v : list Message) (c : context) : context :=
  mkContext (isOnline c) (wsConnected c) (settings c) v (isProcessingAudio c)
            (pendingMessages c) (isSpeaking c) (lastTranscription c).

Definition setIsProcessingAudio (v : bool) (c : context) : context :=
  mkContext (isOnline c) (wsConnected c) (settings c) (messages c) v
            (pendingMessages c) (isSpeaking c) (lastTranscription c).

Definition setPendingMessages (v : list PendingMessage) (c : context) : context :=
  mkContext (isOnline c) (wsConnected c) (settings c) (messages c)
            (isProcessingAudio c) v (isSpeaking c) (lastTranscription c).

Definition setIsSpeaking (v : bool) (c : context) : context :=
  mkContext (isOnline c) (wsConnected c) (settings c) (messages c)
            (isProcessingAudio c) (pendingMessages c) v (lastTranscription c).

Definition setLastTranscription (v : string) (c : context) : context :=
  mkContext (isOnline c) (wsConnected c) (settings c) (messages c)
            (isProcessingAudio c) (pendingMessages c) (isSpeaking c) v.

(** The provider as first rendered. *)
Definition initial : context :=
  mkContext true false DEFAULT_SETTINGS [] false [] false "".

(** [Date.now().toString()] *)
Definition toString (now : Z) : string :=
  NilZero.string_of_int (Z.to_int now).

(** [a || b] on strings: the empty string is falsy. *)
Definition orElse (a b : string) : string :=
  if (a =? "")%string then b else a.

(** [settings.userId || 'guest'] *)
Definition userIdOrGuest (st : Settings) : string :=
  match userId st with
  | Some u => orElse u "guest"
  | None => "guest"
  end.

Definition truthy (v : option string) : bool :=
  match v with
  | Some x => negb (x =? "")%string
  | None => false
  end.

(** [addMessage(text, isUser, type, id)]; [id] and [now] are the two
    clock readings it takes, the first for the default id. *)
Definition addMessage (text : string) (isUser : bool) (type : string)
           (id : string) (now : Z) (c : context) : context * string :=
  let newMessage := mkMessage id text isUser type now in
  (setMessages (messages c ++ [newMessage]) c, id).

(** [msg.id === id ? { ...msg, text } : msg] *)
Definition retext (target newText : string) (msg : Message) : Message :=
  if (id msg =? target)%string
  then mkMessage (id msg) newText (isUser msg) (type msg) (timestamp msg)
  else msg.

Definition offlineNotice : string :=
  "I'm currently offline. I'll process your message when I reconnect.".

(** [sendAudioToServer(audioBase64, transcription)].  [Date_now k] is
    the clock at the k-th reading the call takes; [render] is the
    state the closure was created in.  Offline, the entry's
    [timestamp: Date.now()] stands inside the updater handed to
    [setPendingMessages]: it is read when that updater runs, after the
    body of the call - the two readings of the notice included - has
    finished, so it is the last reading. *)
Definition sendAudioToServer (Date_now : nat -> Z) (socketSend : outcome)
           (audioBase64 transcription : string) (w : world)
  : world * option string :=
  let render := app w in
  let c1 := setIsProcessingAudio true (app w) in
  let messageId := toString (Date_now 0%nat) in
  let displayText := orElse transcription "Listening..." in
  let '(c2, userMessageId) :=
    addMessage displayText true "normal"
               (toString (Date_now 1%nat)) (Date_now 2%nat) c1 in
  if wsConnected render then
    let '(ws', _) :=
      send (audioMessage audioBase64 transcription
                         (userIdOrGuest (settings render))
                         (userName (settings render))
                         (aiVoice (settings render))
                         (Date_now 3%nat) userMessageId)
           socketSend (ws w) in
    (mkWorld c2 ws', Some userMessageId)
  else
    let c3 := setPendingMessages
                (pendingMessages c2
                 ++ [pendingAudio audioBase64 transcription
                                  (Date_now 5%nat) userMessageId]) c2 in
    let c4 := setMessages
                (map (retext userMessageId
                        (orElse transcription
                                "Message saved for when connection is restored"))
                     (messages c3)) c3 in
    let '(c5, _) :=
      addMessage offlineNotice false "system"
                 (toString (Date_now 3%nat)) (Date_now 4%nat) c4 in
    (mkWorld (setIsProcessingAudio false c5) (ws w), Some userMessageId).

(** [sendTextToServer(text)]; offline, the clock is read in the same
    order as in [sendAudioToServer]: the notice first, the entry's
    timestamp last, inside the updater. *)
Definition sendTextToServer (Date_now : nat -> Z) (socketSend : outcome)
           (text : string) (w : world) : world * option string :=
  let render := app w in
  let messageId := toString (Date_now 0%nat) in
  let '(c1, userMessageId) :=
    addMessage text true "normal"
               (toString (Date_now 1%nat)) (Date_now 2%nat) (app w) in
  if wsConnected render then
    let '(ws', _) :=
      send (textMessage text (userIdOrGuest (settings render))
                        (userName (settings render))
                        (aiVoice (settings render))
                        (Date_now 3%nat) userMessageId)
           socketSend (ws w) in
    (mkWorld c1 ws', Some userMessageId)
  else
    let c2 := setPendingMessages
                (pendingMessages c1
                 ++ [pendingText text (Date_now 5%nat) userMessageId]) c1 in
    let '(c3, _) :=
      addMessage offlineNotice false "system"
                 (toString (Date_now 3%nat)) (Date_now 4%nat) c2 in
    (mkWorld c3 (ws w), Some userMessageId).

(** The wire message [processPendingMessages] builds for an entry. *)
Definition wireOf (st : Settings) (p : PendingMessage) : outbound :=
  match p with
  | pendingText text timestamp messageId =>
      textMessage text (userIdOrGuest st) (userName st) (aiVoice st)
                  timestamp messageId
  | pendingAudio audioBase64 transcription timestamp messageId =>
      audioMessage audioBase64 (orElse transcription "")
                   (userIdOrGuest st) (userName st) (aiVoice st)
                   timestamp messageId
  end.

(** [processPendingMessages]: also returns what [WebSocketService.send]
    answered, when it was called. *)
Definition processPendingMessages (Date_now : nat -> Z) (socketSend : outcome)
           (w : world) : world * option bool :=
  let render := app w in
  if negb (wsConnected render)
     || (List.length (pendingMessages render) =? 0)%nat
  then (w, None)
  else
    match pendingMessages render with
    | [] => (w, None)
    | firstPending :: remainingPending =>
        let '(c1, _) :=
          addMessage "Processing your offline messages..." false "system"
                     (toString (Date_now 0%nat)) (Date_now 1%nat) (app w) in
        let c2 := setPendingMessages remainingPending c1 in
        let '(ws', sent) :=
          send (wireOf (settings render) firstPending) socketSend (ws w) in
        (mkWorld (setIsProcessingAudio true c2) ws', Some sent)
    end.

(** [clearConversation] *)
Definition clearConversation (w : world) : world :=
  mkWorld (setMessages [] (app w)) (ws w).

(** The callbacks registered with the service in [initWebSocket]. *)
Definition whenConnected (Date_now : nat -> Z) (c : context) : context :=
  fst (addMessage "Connected to AI assistant" false "system"
                  (toString (Date_now 0%nat)) (Date_now 1%nat)
                  (setWsConnected true c)).

Definition whenDisconnected (Date_now : nat -> Z) (c : context) : context :=
  let c1 := setWsConnected false c in
  if isOnline c
  then fst (addMessage "Disconnected from AI assistant" false "system"
                       (toString (Date_now 0%nat)) (Date_now 1%nat) c1)
  else c1.

(** [handleWebSocketMessage] *)
Definition handleWebSocketMessage (Date_now : nat -> Z) (m : inbound)
           (c : context) : context :=
  match m with
  | aiResponse text audioBase64 transcription messageId =>
      let c1 :=
        match transcription, messageId with
        | Some tr, Some mid =>
            if truthy transcription && truthy messageId
            then setMessages (map (retext mid tr) (messages c))
                             (setLastTranscription tr c)
            else c
        | _, _ => c
        end in
      let '(c2, _) :=
        addMessage text false "normal"
                   (toString (Date_now 0%nat)) (Date_now 1%nat) c1 in
      (* with audio, [isSpeaking] stays up until the 1000 ms timer *)
      setIsProcessingAudio false (setIsSpeaking (truthy audioBase64) c2)
  | errorMessage message =>
      let '(c1, _) :=
        addMessage ("Error: " ++ message)%string false "system"
                   (toString (Date_now 0%nat)) (Date_now 1%nat) c in
      setIsProcessingAudio false c1
  | pong => c
  | unparsable => c
  | otherJson _ => c
  end.

(** The platform reports the socket open: its state becomes open and,
    if the service's handlers are on it, [handleOpen] runs, then the
    provider's callback if the service notified it. *)
Definition socketOpens (now : Z) (w : world) : world :=
  let '(ws', notes) :=
    match socket (ws w) with
    | Some sk =>
        let opened :=
          withSocket (Some (mkWebSocket (socketUrl sk) WS_OPEN (handlers sk)
                                        (handed sk))) (ws w) in
        if handlers sk then handleOpen now opened else (opened, [])
    | None => (ws w, [])
    end in
  mkWorld (match notes with
           | NotifyConnect :: _ => whenConnected (fun _ => now) (app w)
           | _ => app w
           end) ws'.

(** *** Offline submissions and draining *)

(** What the user submits: a finalised capture, or typed text. *)
Inductive submission : Type :=
| submitAudio (audioBase64 transcription : string)
| submitText (text : string).

Definition submit (Date_now : nat -> Z) (socketSend : outcome)
           (r : submission) (w : world) : world :=
  match r with
  | submitAudio audioBase64 transcription =>
      fst (sendAudioToServer Date_now socketSend audioBase64 transcription w)
  | submitText text => fst (sendTextToServer Date_now socketSend text w)
  end.

(** Submissions made one after the other, each with its own clock. *)
Fixpoint submitAll (socketSend : outcome)
         (rs : list ((nat -> Z) * submission)) (w : world) : world :=
  match rs with
  | [] => w
  | (Date_now, r) :: rest =>
      submitAll socketSend rest (submit Date_now socketSend r w)
  end.

(** The queue entry a submission stands for: its timestamp is the
    reading taken inside the updater, its id the one of the user's
    message. *)
Definition entryOf (cr : (nat -> Z) * submission) : PendingMessage :=
  let '(Date_now, r) := cr in
  match r with
  | submitAudio audioBase64 transcription =>
      pendingAudio audioBase64 transcription (Date_now 5%nat)
                   (toString (Date_now 1%nat))
  | submitText text =>
      pendingText text (Date_now 5%nat) (toString (Date_now 1%nat))
  end.

(** The frame a submission made while connected goes out as: its
    timestamp is read while the frame is built, right after the two
    readings of the user's message. *)
Definition frameOf (st : Settings) (cr : (nat -> Z) * submission) : outbound :=
  let '(Date_now, r) := cr in
  match r with
  | submitAudio audioBase64 transcription =>
      audioMessage audioBase64 transcription
                   (userIdOrGuest st) (userName st) (aiVoice st)
                   (Date_now 3%nat) (toString (Date_now 1%nat))
  | submitText text =>
      textMessage text (userIdOrGuest st) (userName st) (aiVoice st)
                  (Date_now 3%nat) (toString (Date_now 1%nat))
  end.

(** One [processPendingMessages] per clock, each on the state the
    previous one left (the effect on [wsConnected, pendingMessages]
    runs it again after every change of the queue). *)
Fixpoint drain (socketSend : outcome) (clocks : list (nat -> Z))
         (w : world) : world :=
  match clocks with
  | [] => w
  | Date_now :: rest =>
      drain socketSend rest
            (fst (processPendingMessages Date_now socketSend w))
  end.

(** *** The provider over time *)

Definition setSettings (v : Settings) (c : context) : context :=
  mkContext (isOnline c) (wsConnected c) v (messages c) (isProcessingAudio c)
            (pendingMessages c) (isSpeaking c) (lastTranscription c).

(** The [onError] callback registered in [initWebSocket]. *)
Definition whenError (Date_now : nat -> Z) (c : context) : context :=
  fst (addMessage "Error connecting to AI assistant" false "system"
                  (toString (Date_now 0%nat)) (Date_now 1%nat) c).

(** What happens to the provider: the user submits, the effect on the
    queue runs, a frame is passed on by the service, or the service
    reports its link up, down or in error. *)
Inductive operation : Type :=
| userSubmits (r : submission)
| queueEffect
| frameArrives (m : inbound)
| linkUp
| linkDown
| linkError.

Definition act (Date_now : nat -> Z) (socketSend : outcome) (op : operation)
           (w : world) : world :=
  match op with
  | userSubmits r => submit Date_now socketSend r w
  | queueEffect => fst (processPendingMessages Date_now socketSend w)
  | frameArrives m => mkWorld (handleWebSocketMessage Date_now m (app w)) (ws w)
  | linkUp => mkWorld (whenConnected Date_now (app w)) (ws w)
  | linkDown => mkWorld (whenDisconnected Date_now (app w)) (ws w)
  | linkError => mkWorld (whenError Date_now (app w)) (ws w)
  end.

(** Operations one after the other, each with its own clock and its
    own answer of the socket. *)
Fixpoint actAll (ops : list ((nat -> Z) * outcome * operation)) (w : world)
  : world :=
  match ops with
  | [] => w
  | (Date_now, socketSend, op) :: rest =>
      actAll rest (act Date_now socketSend op w)
  end.

(** Everything of a message but its text. *)
Definition header (m : Message) : string * bool * string * Z :=
  (id m, isUser m, type m, timestamp m).

(** *** AsyncStorage *)

(** The three keys the provider uses; a key never written is absent. *)
Record storage : Type := mkStorage {
  SETTINGS : option Settings;
  PENDING_MESSAGES : option (list PendingMessage);
  CONVERSATION_HISTORY : option (list Message)
}.

(** [messages.slice(-100)] *)
Definition lastHundred (l : list Message) : list Message :=
  skipn (List.length l - 100)%nat l.

(** The three save effects, run on the state of a render. *)
Definition saved (c : context) : storage :=
  mkStorage (Some (settings c)) (Some (pendingMessages c))
            (Some (lastHundred (messages c))).

(** The load effect of the first render: each key that is present
    replaces its cell. *)
Definition loaded (st : storage) (c : context) : context :=
  let c1 := match SETTINGS st with
            | Some v => setSettings v c
            | None => c
            end in
  let c2 := match PENDING_MESSAGES st with
            | Some v => setPendingMessages v c1
            | None => c1
            end in
  match CONVERSATION_HISTORY st with
  | Some v => setMessages v c2
  | None => c2
  end.

(** The provider mounting on what a previous run left: the reads of the
    load effect are answered from [st], and the save effects have run
    on the state they produce. *)
Definition mount (st : storage) : context * storage :=
  let c := loaded st initial in (c, saved c).

End AppContext.

(** ** src/services/AudioService.js *)
Module AudioService.
Import Constants.

(** What the [onSilenceDetected] callback does to the service: the
    screen's handler either calls [stopRecording] or returns at once. *)
Inductive callback : Type :=
| callsStopRecording
| returnsAtOnce.

(** The options of [startRecording] that the service reads. *)
Record options : Type := mkOptions {
  detectSilence : bool;
  silenceThreshold : Q;
  useVoiceRecognition : bool;
  onSilenceDetected : option callback
}.

(** A chunk delivered by the recorder's [data] event; [level] is the
    energy of its samples on the 0.0 - 1.0 scale of the threshold. *)
Record frame : Type := mkFrame {
  level : Q
}.

(** The static fields of the class, the [data] listener registered
    last by [startSilenceDetection] with the threshold and callback it
    closed over (a timer set by an earlier listener is cleared by the
    later one within the same event), and the number of times the
    callback was called. *)
Record service : Type := mkService {
  isRecording : bool;
  isInitialized : bool;
  recordOptions : option options;
  silenceTimer : option timeout;
  lastTranscription : string;
  listener : option (Q * option callback);
  silenceCalls : nat
}.

Definition initial : service :=
  mkService false false None None "" None 0.

Definition withIsRecording (v : bool) (s : service) : service :=
  mkService v (isInitialized s) (recordOptions s) (silenceTimer s)
            (lastTranscription s) (listener s) (silenceCalls s).

Definition withSilenceTimer (v : option timeout) (s : service) : service :=
  mkService (isRecording s) (isInitialized s) (recordOptions s) v
            (lastTranscription s) (listener s) (silenceCalls s).

Definition clearTimeout (h : option timeout) : option timeout :=
  match h with
  | Some h => Some (mkTimeout (due h) false)
  | None => None
  end.

(** [stopRecording], as far as the service's own fields go. *)
Definition stopRecording (s : service) : service :=
  if negb (isRecording s) then s
  else
    let s1 := match silenceTimer s with
              | Some _ => withSilenceTimer None s
              | None => s
              end in
    withIsRecording false s1.

(** [startSilenceDetection(threshold, callback)] *)
Definition startSilenceDetection (threshold : Q) (cb : option callback)
           (s : service) : service :=
  let s1 := withSilenceTimer (clearTimeout (silenceTimer s)) s in
  mkService (isRecording s1) (isInitialized s1) (recordOptions s1)
            (silenceTimer s1) (lastTranscription s1)
            (Some (threshold, cb)) (silenceCalls s1).

(** [options.silenceThreshold || 0.2] *)
Definition thresholdOrDefault (o : options) : Q :=
  if Qeq_bool (silenceThreshold o) 0 then 2 # 10 else silenceThreshold o.

(** [startRecording(options)] with the microphone granted. *)
Definition startRecording (o : options) (s : service) : service :=
  let s0 := mkService (isRecording s) true (recordOptions s) (silenceTimer s)
                      (lastTranscription s) (listener s) (silenceCalls s) in
  let s1 := if isRecording s0 then stopRecording s0 else s0 in
  let s2 := mkService true (isInitialized s1) (Some o) (silenceTimer s1)
                      "" (listener s1) (silenceCalls s1) in
  match detectSilence o, onSilenceDetected o with
  | true, Some cb => startSilenceDetection (thresholdOrDefault o) (Some cb) s2
  | _, _ => s2
  end.

(** The [data] listener, run at time [now] on frame [data]: whatever
    timer is held is cleared and a new one is set for 2000 ms later. *)
Definition onData (now : Z) (data : frame) (s : service) : service :=
  match listener s with
  | Some (threshold, cb) =>
      let s1 := withSilenceTimer (clearTimeout (silenceTimer s)) s in
      withSilenceTimer (Some (setTimeout now 2000)) s1
  | None => s
  end.

Definition invoke (cb : callback) (s : service) : service :=
  let s1 := mkService (isRecording s) (isInitialized s) (recordOptions s)
                      (silenceTimer s) (lastTranscription s) (listener s)
                      (S (silenceCalls s)) in
  match cb with
  | callsStopRecording => stopRecording s1
  | returnsAtOnce => s1
  end.

(** The callback given to [setTimeout] by the listener. *)
Definition silenceTimerFires (s : service) : service :=
  let s1 := withSilenceTimer (fired (silenceTimer s)) s in
  match listener s1 with
  | Some (_, Some cb) => if isRecording s1 then invoke cb s1 else s1
  | _ => s1
  end.

(** Time reaches [t]: the silence timer runs if it is due. *)
Definition elapse (t : Z) (s : service) : service :=
  if fires t (silenceTimer s) then silenceTimerFires s else s.

(** A recording as the service sees it: frames at increasing times. *)
Fixpoint feed (frames : list (Z * frame)) (s : service) : service :=
  match frames with
  | [] => s
  | (t, f) :: rest => feed rest (onData t f (elapse t s))
  end.

(** No frame of the recording is louder than the threshold. *)
Definition allQuiet (threshold : Q) (frames : list (Z * frame)) : bool :=
  forallb (fun tf => Qle_bool (level (snd tf)) threshold) frames.

(** Successive frames, the first counted from [t0], are less than
    2000 ms apart. *)
Fixpoint dense (t0 : Z) (frames : list (Z * frame)) : Prop :=
  match frames with
  | [] => True
  | (t, _) :: rest => t0 <= t < t0 + 2000 /\ dense t rest
  end.

Definition lastTime (t0 : Z) (frames : list (Z * frame)) : Z :=
  last (map fst frames) t0.

(** The state of a recording whose last frame came at [t0]: recording,
    listening, the timer pending for [t0 + 2000]. *)
Definition armed (t0 : Z) (threshold : Q) (cb : callback) (s : service) : Prop :=
  isRecording s = true
  /\ listener s = Some (threshold, Some cb)
  /\ silenceTimer s = Some (setTimeout t0 2000).

(** *** Voice recognition *)

Definition withLastTranscription (v : string) (s : service) : service :=
  mkService (isRecording s) (isInitialized s) (recordOptions s)
            (silenceTimer s) v (listener s) (silenceCalls s).

(** [handleSpeechStart] *)
Definition handleSpeechStart (s : service) : service :=
  withLastTranscription "" s.

(** [handleSpeechResults(event)]; [value] is [event.value], the
    hypotheses of the recogniser, most likely first. *)
Definition handleSpeechResults (value : option (list string)) (s : service)
  : service :=
  match value with
  | Some (first :: _) => withLastTranscription first s
  | _ => s
  end.

(** The events of the recogniser, as the handlers set in
    [initialize] receive them. *)
Inductive speech : Type :=
| onSpeechStart
| onSpeechEnd
| onSpeechResults (value : option (list string))
| onSpeechError.

Definition hear (e : speech) (s : service) : service :=
  match e with
  | onSpeechStart => handleSpeechStart s
  | onSpeechResults value => handleSpeechResults value s
  | onSpeechEnd => s
  | onSpeechError => s
  end.

Fixpoint hearAll (es : list speech) (s : service) : service :=
  match es with
  | [] => s
  | e :: rest => hearAll rest (hear e s)
  end.

(** An event that brings no hypothesis and does not restart the
    recogniser. *)
Definition bringsNothing (e : speech) : Prop :=
  match e with
  | onSpeechStart => False
  | onSpeechResults (Some (_ :: _)) => False
  | _ => True
  end.

(** What [stopRecording] resolves to: null when nothing is being
    recorded, else the capture the recorder returns with the
    transcription held. *)
Definition stopRecordingResult (audioBase64 : string) (s : service)
  : option (string * string) :=
  if negb (isRecording s) then None
  else Some (audioBase64, lastTranscription s).

End AudioService.

(** ** android/app/src/main/kotlin/com/airassist/modules/AudioModule.kt *)
Module AudioModule.

(** A Kotlin [Byte] is an integer of [-128, 127], an [Int] one of
    [-2^31, 2^31 - 1]; conversions and arithmetic wrap around. *)
Definition toByte (v : Z) : Z := (v + 128) mod 256 - 128.
Definition toInt (v : Z) : Z := (v + 2147483648) mod 4294967296 - 2147483648.

Definition SAMPLE_RATE : Z := 44100.

(** [String.toByteArray()] on text of the ASCII range. *)
Definition toByteArray (s : string) : list Z :=
  map (fun c => toByte (Z.of_N (N_of_ascii c))) (list_ascii_of_string s).

(** [intToByteArray]: little-endian, [shr] is the arithmetic shift. *)
Definition intToByteArray (value : Z) : list Z :=
  [toByte value; toByte (Z.shiftr value 8);
   toByte (Z.shiftr value 16); toByte (Z.shiftr value 24)].

(** [shortToByteArray] *)
Definition shortToByteArray (value : Z) : list Z :=
  [toByte value; toByte (Z.shiftr value 8)].

(** The bytes of [wavStream] in [convertPcmToWavBase64]. *)
Definition wavBytes (pcmData : list Z) : list Z :=
  let size := Z.of_nat (List.length pcmData) in
  let totalDataLen := toInt (size + 36) in
  let byteRate := toInt (SAMPLE_RATE * 2) in
  toByteArray "RIFF"
  ++ intToByteArray totalDataLen
  ++ toByteArray "WAVE"
  ++ toByteArray "fmt "
  ++ intToByteArray 16
  ++ shortToByteArray 1
  ++ shortToByteArray 1
  ++ intToByteArray SAMPLE_RATE
  ++ intToByteArray byteRate
  ++ shortToByteArray 2
  ++ shortToByteArray 16
  ++ toByteArray "data"
  ++ intToByteArray size
  ++ pcmData.

Section Base64.
(** [android.util.Base64] is the platform's. *)
Variable Base64_encodeToString : list Z -> string.

(** [convertPcmToWavBase64], on the bytes read from the recording. *)
Definition convertPcmToWavBase64 (pcmData : list Z) : string :=
  Base64_encodeToString (wavBytes pcmData).
End Base64.

Section SilenceEvents.
(** [isSilence] compares a root mean square computed in floating point
    with 500; the recording loop only needs its verdict. *)
Variable isSilence : list Z -> Z -> bool.

(** [writeAudioDataToFile]: one turn of the loop for each result of
    [audioRecord.read] (the buffer and the count returned) until the
    recording stops.  Returns the bytes written to the file and the
    number of [onSilenceDetected] events sent, one turn after the
    other. *)
Fixpoint writeAudioDataToFile (reads : list (list Z * Z)) : list Z * nat :=
  match reads with
  | [] => ([], 0%nat)
  | (buffer, read) :: rest =>
      let '(file, events) := writeAudioDataToFile rest in
      if 0 <? read
      then (firstn (Z.to_nat read) buffer ++ file,
            if isSilence buffer read then S events else events)
      else (file, events)
  end.
End SilenceEvents.

(** *** The fields of the header

    How the bytes of a field read as a number, the other way round from
    [intToByteArray] and [shortToByteArray]. *)

(** A byte read as unsigned, and a little-endian unsigned field. *)
Definition unsigned (b : Z) : Z := b mod 256.

Definition littleEndian (bs : list Z) : Z :=
  fold_right (fun b acc => unsigned b + 256 * acc) 0 bs.

Definition field (offset len : nat) (clip : list Z) : list Z :=
  firstn len (skipn offset clip).

(** Samples in a capture: 16-bit mono, two bytes each. *)
Definition capturedSamples (pcmData : list Z) : Z :=
  Z.of_nat (List.length pcmData) / 2.

(** *** RFC 4648 Base64, as an instance of the platform codec *)
Definition alphabet : list ascii :=
  list_ascii_of_string
    "ABCDEFGHIJKLMNOPQRSTUVWXYZabcdefghijklmnopqrstuvwxyz0123456789+/".

Definition sextet (n : Z) : ascii := nth (Z.to_nat n) alphabet "="%char.

Fixpoint encodeGroups (bs : list Z) : list ascii :=
  match bs with
  | [] => []
  | [a] =>
      let x := unsigned a * 65536 in
      [sextet (x / 262144); sextet (x / 4096 mod 64); "="%char; "="%char]
  | [a; b] =>
      let x := unsigned a * 65536 + unsigned b * 256 in
      [sextet (x / 262144); sextet (x / 4096 mod 64);
       sextet (x / 64 mod 64); "="%char]
  | a :: b :: c :: rest =>
      let x := unsigned a * 65536 + unsigned b * 256 + unsigned c in
      sextet (x / 262144) :: sextet (x / 4096 mod 64)
        :: sextet (x / 64 mod 64) :: sextet (x mod 64) :: encodeGroups rest
  end.

Definition rfc4648_encode (bs : list Z) : string :=
  string_of_list_ascii (encodeGroups bs).

Fixpoint indexOf (c : ascii) (l : list ascii) (i : Z) : Z :=
  match l with
  | [] => 0
  | x :: rest => if Ascii.eqb x c then i else indexOf c rest (i + 1)
  end.

Fixpoint decodeGroups (cs : list ascii) : list Z :=
  match cs with
  | a :: b :: c :: d :: rest =>
      let v k := indexOf k alphabet 0 in
      let x := v a * 262144 + v b * 4096 + v c * 64 + v d in
      let bytes := [toByte (x / 65536); toByte (x / 256); toByte x] in
      (if Ascii.eqb c "="%char then firstn 1 bytes
       else if Ascii.eqb d "="%char then firstn 2 bytes
       else bytes) ++ decodeGroups rest
  | _ => []
  end.

Definition rfc4648_decode (s : string) : list Z :=
  decodeGroups (list_ascii_of_string s).

(** *** Native playback *)

Section Playback.
Variable Base64_decode : string -> list Z.

(** [playAudio(base64Audio)] when the track initialises: rejected
    while something is playing, else the bytes written to the
    [AudioTrack], which plays them as 16-bit mono PCM at
    [SAMPLE_RATE]. *)
Definition playAudio (isPlaying : bool) (base64Audio : string)
  : option (list Z) :=
  if isPlaying then None else Some (Base64_decode base64Audio).
End Playback.

(** The frames the track plays for the bytes written to it: it is
    opened with [AUDIO_FORMAT] and [CHANNEL_OUT_MONO], 16 bits and one
    channel, so two bytes make a frame. *)
Definition framesPlayed (audioData : list Z) : Z :=
  Z.of_nat (List.length audioData) / 2.

End AudioModule.

(** ** App.js: the providers side by side *)
Module App.

Record providers : Type := mkProviders {
  appProvider : AppContext.world;
  bluetoothProvider : BluetoothContext.state;
  audioService : AudioService.service
}.

(** A function of the app provider acts on the app provider's state
    and on the socket service only. *)
Definition inAppProvider (f : AppContext.world -> AppContext.world)
           (p : providers) : providers :=
  mkProviders (f (appProvider p)) (bluetoothProvider p) (audioService p).

End App.

(** ** Sample data *)
Module Samples.
Import Constants.

Module Bluetooth.
Import BluetoothContext.

(** Sample data: a phone with Bluetooth up, two discovered headsets
    and an empty history. *)
Definition headset : Device := mkDevice "DE:AD:BE:EF:12:34" "AIR-Headset" (-65).
Definition earbuds : Device := mkDevice "C0:FF:EE:00:00:01" "BT Earbuds" (-72).

Definition ready : state :=
  mkState true true false DISCONNECTED None [headset; earbuds] None [] None.

Definition radioUp : platform :=
  mkPlatform Resolves Resolves Resolves Resolves Resolves.

Definition radioDown : platform :=
  mkPlatform Resolves (Rejects "Connection failed") Resolves
             (Rejects "Disconnect failed") Resolves.

Definition connectedTo (d : Device) : state :=
  mkState true true false CONNECTED None [headset; earbuds] (Some d) [d] None.

End Bluetooth.

Module Conversation.
Import WebSocketService AppContext.

(** A clock that stays within one millisecond during a call, and one
    that moves on a millisecond at every reading. *)
Definition sameMillisecond (t : Z) : nat -> Z := fun _ => t.
Definition ticking (t : Z) : nat -> Z := fun k => t + Z.of_nat k.

Definition endpoint : string := wsServerUrl DEFAULT_SETTINGS.

(** The service between two connections: a socket not yet open, the
    provider's callbacks registered. *)
Definition reconnecting : service :=
  mkService (Some (mkWebSocket endpoint WS_CONNECTING true []))
            (Some endpoint) false true None None None true true true true [].

(** The service when its socket has gone but no close event was
    delivered yet. *)
Definition stale : service :=
  mkService (Some (mkWebSocket endpoint WS_CLOSED true []))
            (Some endpoint) true false None (Some 1700000030000)
            (Some 1700000000000) true true true true [].

(** The provider still believing it is connected, over that service. *)
Definition believing : world :=
  mkWorld (setWsConnected true AppContext.initial) stale.

(** The service with its socket open since [t]. *)
Definition openSince (t : Z) : service :=
  mkService (Some (mkWebSocket endpoint WS_OPEN true []))
            (Some endpoint) true false None (Some (t + 30000))
            (Some t) true true true true [].

(** The same service once the platform has opened the socket, before
    the open event is handled. *)
Definition opening : service :=
  withSocket (Some (mkWebSocket endpoint WS_OPEN true [])) reconnecting.

Definition offline : world := mkWorld AppContext.initial reconnecting.

Definition lights : Message :=
  mkMessage "1700000000000" "turn on lights" true "normal" 1700000000000.

Definition lightsPending : PendingMessage :=
  pendingAudio "UklGRg==" "turn on lights" 1700000000000 "1700000000000".

(** Connected as far as the provider knows, one entry queued. *)
Definition queued (sv : service) : world :=
  mkWorld (mkContext true true DEFAULT_SETTINGS [lights] false
                     [lightsPending] false "") sv.

(** The notice a drain logs. *)
Definition processingNotice (Date_now : nat -> Z) : Message :=
  mkMessage (toString (Date_now 0%nat)) "Processing your offline messages..."
            false "system" (Date_now 1%nat).

Definition threeSubmissions : list ((nat -> Z) * submission) :=
  [(ticking 1700000001000, submitAudio "UklGRg==" "turn on lights");
   (ticking 1700000002000, submitText "and the radio");
   (ticking 1700000003000, submitAudio "UklGRh==" "")].

End Conversation.

Module Recording.
Import AudioService.

(** A recording with silence detection whose callback calls
    [stopRecording]. *)
Definition handsFree : options :=
  mkOptions true (2 # 10) true (Some callsStopRecording).

(** A recording the user ends by hand. *)
Definition pushToTalk : options :=
  mkOptions false (2 # 10) true None.

Definition silent : frame := mkFrame 0.
Definition loud : frame := mkFrame (9 # 10).

(** Six silent frames, one second apart. *)
Definition sixSilentFrames : list (Z * frame) :=
  [(0, silent); (1000, silent); (2000, silent); (3000, silent);
   (4000, silent); (5000, silent)].

End Recording.

End Samples.

(** * Properties *)

(** ** Device history, connect and disconnect *)
Section BluetoothFacts.
Import Constants BluetoothContext Samples.Bluetooth.

Lemma previousDevices_stopScan p render s :
  previousDevices (stopScan p render s) = previousDevices s.
Proof.
  unfold stopScan.
  destruct (isScanning render); simpl; [|reflexivity].
  destruct (BleManager_stopScan p); simpl; [|reflexivity].
  destruct (connectedDevice render); reflexivity.
Qed.

(** What a connect does to the history: nothing when it rejects; when
    it resolves with [d], [d] goes in front, its older entry is
    dropped and the list is cut at ten. *)
Lemma previousDevices_connectToDevice p deviceId s :
  match connectToDevice p deviceId s with
  | (s', Rejected _) => previousDevices s' = previousDevices s
  | (s', Resolved d) =>
      previousDevices s' =
      firstn 10 (d :: filter (fun x => negb (id x =? id d)%string)
                             (previousDevices s))
  end.
Proof.
  unfold connectToDevice.
  destruct (negb (isBluetoothEnabled s) || negb (isInitialized s)); [reflexivity|].
  assert (E : previousDevices
                (if isScanning s
                 then stopScan p s (setError None (setConnectionState CONNECTING s))
                 else setError None (setConnectionState CONNECTING s))
              = previousDevices s).
  { destruct (isScanning s); [rewrite previousDevices_stopScan|]; reflexivity. }
  destruct (find _ _) as [device|]; [|exact E].
  destruct (BleManager_connect p); [|exact E].
  destruct (BleManager_retrieveServices p); [|exact E].
  unfold saveDeviceToHistory.
  destruct (AsyncStorage_setItem p); reflexivity.
Qed.

Lemma previousDevices_disconnectFromDevice p deviceId s :
  previousDevices (disconnectFromDevice p deviceId s) = previousDevices s.
Proof.
  unfold disconnectFromDevice.
  destruct (notCurrentDevice deviceId s); [reflexivity|].
  destruct (BleManager_disconnect p); reflexivity.
Qed.

Lemma map_id_filter x (l : list Device) :
  map id (filter (fun d => negb (id d =? x)%string) l)
  = filter (differs x) (map id l).
Proof.
  unfold differs.
  induction l as [|d l IH]; simpl; [reflexivity|].
  destruct (id d =? x)%string; simpl; rewrite IH; reflexivity.
Qed.

Lemma filter_differs_notin x l :
  ~ In x l -> filter (differs x) l = l.
Proof.
  induction l as [|y l IH]; simpl; intros H; [reflexivity|].
  unfold differs at 1.
  destruct (String.eqb_spec y x) as [->|N]; simpl.
  - exfalso; apply H; now left.
  - rewrite IH; [reflexivity|]. intros I; apply H; now right.
Qed.

Lemma nodup_snoc x l :
  nodup string_dec (l ++ [x]) = filter (differs x) (nodup string_dec l) ++ [x].
Proof.
  induction l as [|y l IH]; simpl; [reflexivity|].
  destruct (in_dec string_dec y (l ++ [x])) as [I|N];
    destruct (in_dec string_dec y l) as [I'|N']; simpl.
  - exact IH.
  - apply in_app_or in I. destruct I as [I|[<-|[]]]; [contradiction|].
    unfold differs at 1. rewrite String.eqb_refl. simpl. exact IH.
  - exfalso; apply N, in_or_app; now left.
  - unfold differs at 1.
    destruct (String.eqb_spec y x) as [->|D]; simpl.
    + exfalso; apply N, in_or_app; right; now left.
    + rewrite IH; reflexivity.
Qed.

Lemma In_firstn {A} (a : A) (n : nat) (l : list A) :
  In a (firstn n l) -> In a l.
Proof.
  revert n; induction l as [|b l IH]; intros n.
  - rewrite firstn_nil. trivial.
  - destruct n as [|n]; simpl; [tauto|].
    intros [E|I]; [now left|right; eapply IH; exact I].
Qed.

(** Dropping one id from a duplicate-free list and keeping [n] entries
    needs only the first [n + 1] entries of the list. *)
Lemma firstn_filter_firstn x (n m : nat) (l : list string) :
  NoDup l -> (n < m)%nat ->
  firstn n (filter (differs x) (firstn m l)) = firstn n (filter (differs x) l).
Proof.
  revert n m; induction l as [|a l IH]; intros n m N H.
  - rewrite firstn_nil; reflexivity.
  - destruct m as [|m]; [lia|].
    inversion N as [|? ? Na Nl]; subst.
    simpl. destruct (differs x a) eqn:E.
    + destruct n as [|n]; [reflexivity|].
      simpl. rewrite IH by (trivial; lia). reflexivity.
    + unfold differs in E. apply negb_false_iff, String.eqb_eq in E. subst a.
      assert (Nm : ~ In x (firstn m l))
        by (intros I; apply Na; eapply In_firstn; exact I).
      rewrite (filter_differs_notin x l Na).
      rewrite (filter_differs_notin x _ Nm).
      rewrite firstn_firstn. f_equal. lia.
Qed.

Lemma mostRecentFirst_snoc x l :
  mostRecentFirst (l ++ [x]) = x :: filter (differs x) (mostRecentFirst l).
Proof.
  unfold mostRecentFirst.
  rewrite nodup_snoc, rev_app_distr. simpl.
  rewrite filter_rev. reflexivity.
Qed.

(** One resolved connect keeps the history in step with the list of
    connects. *)
Lemma history_step (h : list Device) (d : Device) (connects : list string) :
  map id h = firstn 10 (mostRecentFirst connects) ->
  map id (firstn 10 (d :: filter (fun x => negb (id x =? id d)%string) h))
  = firstn 10 (mostRecentFirst (connects ++ [id d])).
Proof.
  intros H.
  rewrite mostRecentFirst_snoc.
  change (firstn 10 (?a :: ?l)) with (a :: firstn 9 l).
  rewrite map_cons, <- firstn_map, map_id_filter, H.
  rewrite firstn_filter_firstn; [reflexivity| |lia].
  unfold mostRecentFirst. apply NoDup_rev, NoDup_nodup.
Qed.

Lemma run_history (cs : list call) :
  forall (s : state) (connects : list string),
    map id (previousDevices s) = firstn 10 (mostRecentFirst connects) ->
    map id (previousDevices (fst (run cs s)))
    = firstn 10 (mostRecentFirst (connects ++ map id (snd (run cs s)))).
Proof.
  induction cs as [|c cs IH]; intros s connects H; simpl.
  - rewrite app_nil_r. exact H.
  - destruct (perform c s) as [s1 d] eqn:P.
    specialize (IH s1).
    destruct (run cs s1) as [s2 ds] eqn:R. simpl in *.
    destruct c as [p deviceId|p deviceId]; simpl in P.
    + pose proof (previousDevices_connectToDevice p deviceId s) as C.
      destruct (connectToDevice p deviceId s) as [s' [dev|msg]];
        inversion P; subst; clear P.
      * simpl.
        replace (connects ++ id dev :: map id ds)
          with ((connects ++ [id dev]) ++ map id ds)
          by (rewrite <- app_assoc; reflexivity).
        apply IH.
        rewrite C. apply history_step, H.
      * apply IH. rewrite C. exact H.
    + inversion P; subst; clear P.
      apply IH. rewrite previousDevices_disconnectFromDevice. exact H.
Qed.

Lemma history_initial (ids : list string) :
  (List.length ids <= 10)%nat -> NoDup ids ->
  ids = firstn 10 (mostRecentFirst (rev ids)).
Proof.
  intros L N. unfold mostRecentFirst.
  rewrite nodup_fixed_point by (apply NoDup_rev; exact N).
  rewrite rev_involutive, firstn_all2 by exact L. reflexivity.
Qed.

Lemma NoDup_firstn {A} (n : nat) (l : list A) :
  NoDup l -> NoDup (firstn n l).
Proof.
  revert n; induction l as [|a l IH]; intros n N.
  - rewrite firstn_nil; constructor.
  - destruct n as [|n]; simpl; [constructor|].
    inversion N as [|? ? Hn Hl]; subst.
    constructor; [|apply IH; exact Hl].
    intros I. apply Hn. eapply In_firstn. exact I.
Qed.

Example run_sample :
  let r := run [Connect radioUp (id headset); Connect radioUp (id earbuds);
                Connect radioDown (id headset); Disconnect radioUp (id earbuds);
                Connect radioUp "unknown-id"; Connect radioUp (id headset)]
               ready in
  previousDevices (fst r) = [headset; earbuds]
  /\ snd r = [headset; earbuds; headset].
Proof. split; reflexivity. Qed.

(** C4.  Whatever connects and disconnects are made, starting from a
    history of at most ten entries with distinct ids (the empty one at
    first start), the history still has at most ten entries with
    distinct ids, and its ids are the ten most recent distinct ids of
    the connects that resolved, the latest first: each resolved
    connect puts its device in front, anything else leaves the history
    as it is, and only entries pushed beyond the tenth place leave. *)
Theorem device_history_bounded_unique_mru (cs : list call) (s0 : state) :
  (List.length (previousDevices s0) <= 10)%nat ->
  NoDup (map id (previousDevices s0)) ->
  (List.length (previousDevices (fst (run cs s0))) <= 10)%nat
  /\ NoDup (map id (previousDevices (fst (run cs s0))))
  /\ map id (previousDevices (fst (run cs s0)))
     = firstn 10 (mostRecentFirst (rev (map id (previousDevices s0))
                                   ++ map id (snd (run cs s0)))).
Proof.
  intros L N.
  assert (E : map id (previousDevices (fst (run cs s0)))
              = firstn 10 (mostRecentFirst (rev (map id (previousDevices s0))
                                            ++ map id (snd (run cs s0))))).
  { apply run_history, history_initial; [rewrite length_map; exact L|exact N]. }
  split; [|split; [|exact E]].
  - rewrite <- (length_map id), E. apply firstn_le_length.
  - rewrite E. apply NoDup_firstn. unfold mostRecentFirst.
    apply NoDup_rev, NoDup_nodup.
Qed.

Lemma device_history_bounded_unique_mru_witness :
  (List.length (previousDevices ready) <= 10)%nat
  /\ NoDup (map id (previousDevices ready))
  /\ let cs := [Connect radioUp (id headset); Connect radioUp (id earbuds);
                Disconnect radioDown (id earbuds); Connect radioUp (id headset)] in
     (List.length (previousDevices (fst (run cs ready))) <= 10)%nat
     /\ NoDup (map id (previousDevices (fst (run cs ready))))
     /\ map id (previousDevices (fst (run cs ready)))
        = firstn 10 (mostRecentFirst (rev (map id (previousDevices ready))
                                      ++ map id (snd (run cs ready)))).
Proof.
  assert (L : (List.length (previousDevices ready) <= 10)%nat) by (simpl; lia).
  assert (N : NoDup (map id (previousDevices ready))) by constructor.
  split; [exact L|split; [exact N|]].
  intros cs. exact (device_history_bounded_unique_mru cs ready L N).
Defined.

Lemma find_unknown (deviceId : string) (l : list Device) :
  (forall d, In d l -> id d <> deviceId) ->
  find (fun d => (id d =? deviceId)%string) l = None.
Proof.
  induction l as [|d l IH]; intros H; simpl; [reflexivity|].
  destruct (String.eqb_spec (id d) deviceId) as [E|_].
  - exfalso. apply (H d); [now left|exact E].
  - apply IH. intros x I. apply H. now right.
Qed.

Lemma connectionState_connectFailed m s :
  connectionState (fst (connectFailed m s)) = ERROR.
Proof. reflexivity. Qed.

(** C6, as the code has it.  With Bluetooth enabled and initialised, a
    connect to an id that is neither among the discovered nor among
    the previous devices rejects with "Device not found"; the
    connection state it leaves is [ERROR] (not [CONNECTING]), the
    error text names the failure, and neither the connected device nor
    the history changes. *)
Theorem connect_unknown_device_rejects (p : platform) (deviceId : string)
        (s : state) :
  isBluetoothEnabled s = true ->
  isInitialized s = true ->
  (forall d, In d (discoveredDevices s ++ previousDevices s) -> id d <> deviceId) ->
  snd (connectToDevice p deviceId s) = Rejected "Device not found"
  /\ connectionState (fst (connectToDevice p deviceId s)) = ERROR
  /\ error (fst (connectToDevice p deviceId s))
     = Some "Failed to connect to device: Device not found"
  /\ connectedDevice (fst (connectToDevice p deviceId s)) = connectedDevice s
  /\ previousDevices (fst (connectToDevice p deviceId s)) = previousDevices s.
Proof.
  intros En In' U. unfold connectToDevice.
  rewrite En, In', (find_unknown _ _ U). simpl.
  unfold stopScan.
  destruct (isScanning s); simpl; [|repeat split].
  destruct (BleManager_stopScan p); simpl; [|repeat split].
  destruct (connectedDevice s) eqn:C; simpl; rewrite ?C; repeat split.
Qed.

Lemma connect_unknown_device_rejects_witness :
  isBluetoothEnabled ready = true
  /\ isInitialized ready = true
  /\ snd (connectToDevice radioUp "unknown-id" ready) = Rejected "Device not found"
  /\ connectionState (fst (connectToDevice radioUp "unknown-id" ready)) = ERROR.
Proof.
  assert (U : forall d, In d (discoveredDevices ready ++ previousDevices ready) ->
                        id d <> "unknown-id").
  { simpl. intros d [<-|[<-|[]]]; discriminate. }
  split; [reflexivity|split; [reflexivity|]].
  destruct (connect_unknown_device_rejects radioUp "unknown-id" ready
              eq_refl eq_refl U) as (R & C & _).
  split; [exact R|exact C].
Defined.

(** C6 as it was claimed fails: after the rejected connect the
    connection state is [ERROR], it has not returned to
    [DISCONNECTED]. *)
Lemma connect_unknown_device_not_disconnected :
  snd (connectToDevice radioUp "unknown-id" ready) = Rejected "Device not found"
  /\ connectionState (fst (connectToDevice radioUp "unknown-id" ready)) = ERROR
  /\ connectionState (fst (connectToDevice radioUp "unknown-id" ready))
     <> DISCONNECTED.
Proof. repeat split. discriminate. Qed.

(** C10.  A disconnect aimed at the connected device (a device id was
    passed and it is the id of [connectedDevice]) ends with no
    connected device and the state [DISCONNECTED], whether the radio
    disconnect resolves or rejects; when it rejects the error text is
    set as well. *)
Theorem disconnect_clears_connected_device (p : platform)
        (deviceId : string) (d : Device) (s : state) :
  connectedDevice s = Some d ->
  id d = deviceId ->
  deviceId <> "" ->
  connectedDevice (disconnectFromDevice p deviceId s) = None
  /\ connectionState (disconnectFromDevice p deviceId s) = DISCONNECTED
  /\ (forall m, BleManager_disconnect p = Rejects m ->
                error (disconnectFromDevice p deviceId s)
                = Some "Failed to disconnect from device").
Proof.
  intros C I NE. unfold disconnectFromDevice, notCurrentDevice.
  rewrite C, I, String.eqb_refl.
  destruct (String.eqb_spec deviceId "") as [E|_]; [contradiction|].
  simpl. destruct (BleManager_disconnect p); simpl.
  - repeat split. discriminate.
  - repeat split.
Qed.

Lemma disconnect_clears_connected_device_witness :
  connectedDevice (connectedTo headset) = Some headset
  /\ id headset <> ""
  /\ connectedDevice (disconnectFromDevice radioDown (id headset)
                                           (connectedTo headset)) = None
  /\ connectionState (disconnectFromDevice radioDown (id headset)
                                           (connectedTo headset)) = DISCONNECTED.
Proof.
  assert (NE : id headset <> "") by discriminate.
  split; [reflexivity|split; [exact NE|]].
  destruct (disconnect_clears_connected_device radioDown (id headset) headset
              (connectedTo headset) eq_refl eq_refl NE) as (A & B & _).
  split; [exact A|exact B].
Defined.

End BluetoothFacts.

(** ** The clip written when a capture is finalised *)
Section AudioModuleFacts.
Import AudioModule.

Lemma unsigned_toByte v : unsigned (toByte v) = v mod 256.
Proof.
  unfold unsigned, toByte. rewrite Zminus_mod_idemp_l. f_equal. lia.
Qed.

Lemma toInt_mod v : toInt v mod 4294967296 = v mod 4294967296.
Proof.
  unfold toInt. rewrite Zminus_mod_idemp_l. f_equal. lia.
Qed.

(** Four bytes written by [intToByteArray] read back as the value
    modulo 2^32. *)
Lemma littleEndian_int v :
  littleEndian (intToByteArray v) = v mod 4294967296.
Proof.
  unfold littleEndian, intToByteArray. cbn [fold_right].
  rewrite !unsigned_toByte, !Z.shiftr_div_pow2 by lia.
  change (2 ^ 8) with 256. change (2 ^ 16) with 65536.
  change (2 ^ 24) with 16777216.
  Z.to_euclidean_division_equations. lia.
Qed.

Lemma littleEndian_short v :
  littleEndian (shortToByteArray v) = v mod 65536.
Proof.
  unfold littleEndian, shortToByteArray. cbn [fold_right].
  rewrite !unsigned_toByte, !Z.shiftr_div_pow2 by lia.
  change (2 ^ 8) with 256.
  Z.to_euclidean_division_equations. lia.
Qed.

(** Where each piece of the header sits in the clip. *)
Lemma wavBytes_layout pcmData :
  let clip := wavBytes pcmData in
  field 0 4 clip = toByteArray "RIFF"
  /\ field 4 4 clip
     = intToByteArray (toInt (Z.of_nat (List.length pcmData) + 36))
  /\ field 8 4 clip = toByteArray "WAVE"
  /\ field 12 4 clip = toByteArray "fmt "
  /\ field 16 4 clip = intToByteArray 16
  /\ field 20 2 clip = shortToByteArray 1
  /\ field 22 2 clip = shortToByteArray 1
  /\ field 24 4 clip = intToByteArray SAMPLE_RATE
  /\ field 28 4 clip = intToByteArray (toInt (SAMPLE_RATE * 2))
  /\ field 32 2 clip = shortToByteArray 2
  /\ field 34 2 clip = shortToByteArray 16
  /\ field 36 4 clip = toByteArray "data"
  /\ field 40 4 clip = intToByteArray (Z.of_nat (List.length pcmData))
  /\ skipn 44 clip = pcmData.
Proof. repeat split; reflexivity. Qed.

Example wavBytes_sample :
  wavBytes [1; -2; 3; 4]
  = [82; 73; 70; 70; 40; 0; 0; 0; 87; 65; 86; 69; 102; 109; 116; 32;
     16; 0; 0; 0; 1; 0; 1; 0; 68; -84; 0; 0; -120; 88; 1; 0; 2; 0; 16; 0;
     100; 97; 116; 97; 4; 0; 0; 0; 1; -2; 3; 4].
Proof. reflexivity. Qed.

Example rfc4648_sample :
  rfc4648_encode (toByteArray "Ma") = "TWE="
  /\ rfc4648_decode "TWE=" = toByteArray "Ma".
Proof. split; reflexivity. Qed.

Lemma length_wavBytes pcmData :
  List.length (wavBytes pcmData) = (44 + List.length pcmData)%nat.
Proof.
  unfold wavBytes. rewrite !length_app. reflexivity.
Qed.



End AudioModuleFacts.

(** ** Conversation log and offline queue *)
Section AppContextFacts.
Import WebSocketService AppContext Samples.Conversation.

(** C9.  Clearing the conversation is one state update: the log becomes
    empty; the socket service, the queue of pending messages, every
    other cell of the app provider, the Bluetooth provider (connected
    device, connection state, history) and the audio service are as
    they were. *)
Theorem clearConversation_frame (p : App.providers) :
  let p' := App.inAppProvider clearConversation p in
  messages (app (App.appProvider p')) = []
  /\ ws (App.appProvider p') = ws (App.appProvider p)
  /\ pendingMessages (app (App.appProvider p'))
     = pendingMessages (app (App.appProvider p))
  /\ wsConnected (app (App.appProvider p')) = wsConnected (app (App.appProvider p))
  /\ isOnline (app (App.appProvider p')) = isOnline (app (App.appProvider p))
  /\ settings (app (App.appProvider p')) = settings (app (App.appProvider p))
  /\ isProcessingAudio (app (App.appProvider p'))
     = isProcessingAudio (app (App.appProvider p))
  /\ isSpeaking (app (App.appProvider p')) = isSpeaking (app (App.appProvider p))
  /\ lastTranscription (app (App.appProvider p'))
     = lastTranscription (app (App.appProvider p))
  /\ App.bluetoothProvider p' = App.bluetoothProvider p
  /\ App.audioService p' = App.audioService p.
Proof. repeat split. Qed.

Example clearConversation_sample :
  app (clearConversation (queued stale))
  = mkContext true true DEFAULT_SETTINGS [] false [lightsPending] false ""
  /\ ws (clearConversation (queued stale)) = stale.
Proof. split; reflexivity. Qed.

(** *** Message ids *)

Lemma id_retext target newText (m : Message) :
  id (retext target newText m) = id m.
Proof. unfold retext. destruct (id m =? target)%string; reflexivity. Qed.

Lemma map_id_retext target newText (l : list Message) :
  map id (map (retext target newText) l) = map id l.
Proof.
  rewrite map_map. apply map_ext. intros m. apply id_retext.
Qed.

(** Offline, [sendAudioToServer] appends the user's message and then the
    offline notice; their ids are the clock readings taken for them. *)
Lemma sendAudioToServer_offline_ids Date_now o audioBase64 transcription w :
  wsConnected (app w) = false ->
  map id (messages (app (fst (sendAudioToServer Date_now o audioBase64
                                                transcription w))))
  = map id (messages (app w))
    ++ [toString (Date_now 1%nat); toString (Date_now 3%nat)].
Proof.
  intros Off. unfold sendAudioToServer. cbn [addMessage].
  cbn [wsConnected setMessages setIsProcessingAudio]. rewrite Off.
  cbn [fst app messages setMessages setPendingMessages setIsProcessingAudio
       addMessage].
  rewrite map_app, map_id_retext, map_app, <- app_assoc. reflexivity.
Qed.

(** C8 fails on the code: a capture finalised while offline appends the
    user's message and the offline notice within the same millisecond,
    and both get the id "1700000000000"; the ids of the log are not
    pairwise distinct.  The reply that later confirms the transcript of
    that id then rewrites the notice as well. *)
Theorem message_ids_collide :
  let w := fst (sendAudioToServer (sameMillisecond 1700000000000) Resolves
                                  "UklGRg==" "turn on lights" offline) in
  map id (messages (app w)) = ["1700000000000"; "1700000000000"]
  /\ map type (messages (app w)) = ["normal"; "system"]
  /\ ~ NoDup (map id (messages (app w)))
  /\ map text (messages (handleWebSocketMessage
                           (sameMillisecond 1700000004000)
                           (aiResponse "Done" None (Some "Turn on the lights.")
                                       (Some "1700000000000"))
                           (app w)))
     = ["Turn on the lights."; "Turn on the lights."; "Done"].
Proof.
  cbv zeta. repeat split.
  intros N. inversion N as [|? ? Hn _]; subst. apply Hn. now left.
Qed.

(** *** Draining the queue *)

Lemma transmitted_hand (m : outbound) (sk : WebSocket) (sv : service) :
  socket sv = Some sk ->
  transmitted (withSocket (Some (hand m sk)) sv) = transmitted sv ++ [m].
Proof.
  intros E. unfold transmitted. cbn [retired withSocket socket hand handed].
  rewrite E, app_assoc. reflexivity.
Qed.

(** What [send] does: the frame goes out on an open socket that takes
    it, and nothing changes otherwise. *)
Lemma send_cases (m : outbound) (o : outcome) (sv : service) :
  (snd (send m o sv) = true
   /\ transmitted (fst (send m o sv)) = transmitted sv ++ [m]
   /\ isOpen (fst (send m o sv)) = isOpen sv)
  \/ (snd (send m o sv) = false /\ fst (send m o sv) = sv).
Proof.
  unfold send. destruct (socket sv) as [sk|] eqn:E; [|right; split; reflexivity].
  destruct (state sk) eqn:St, o; try (right; split; reflexivity).
  left. cbn [fst snd]. repeat split.
  - apply transmitted_hand, E.
  - unfold isOpen. rewrite E. cbn [socket withSocket hand state]. rewrite St.
    reflexivity.
Qed.

Lemma send_open (m : outbound) (sv : service) :
  isOpen sv = true ->
  snd (send m Resolves sv) = true
  /\ transmitted (fst (send m Resolves sv)) = transmitted sv ++ [m]
  /\ isOpen (fst (send m Resolves sv)) = true.
Proof.
  intros O. destruct (send_cases m Resolves sv) as [(A & B & C)|(A & B)].
  - rewrite C. auto.
  - exfalso. unfold send, isOpen in *.
    destruct (socket sv) as [sk|]; [|discriminate].
    destruct (state sk); discriminate.
Qed.

(** One drain, connected and with a non-empty queue: the notice is
    logged, the head leaves the queue and is the one message passed to
    [send]; the provider's state does not depend on how [send] ends. *)
Lemma processPendingMessages_head Date_now o (c : context) (sv : service)
      (e : PendingMessage) (rest : list PendingMessage) :
  wsConnected c = true ->
  pendingMessages c = e :: rest ->
  processPendingMessages Date_now o (mkWorld c sv)
  = (mkWorld
       (setIsProcessingAudio true
          (setPendingMessages rest
             (fst (addMessage "Processing your offline messages..." false
                              "system" (toString (Date_now 0%nat))
                              (Date_now 1%nat) c))))
       (fst (send (wireOf (settings c) e) o sv)),
     Some (snd (send (wireOf (settings c) e) o sv))).
Proof.
  intros C P. unfold processPendingMessages. cbn [app ws].
  rewrite C, P. cbn [negb orb List.length Nat.eqb addMessage fst].
  destruct (send (wireOf (settings c) e) o sv) as [sv' sent]. reflexivity.
Qed.

(** With nothing queued, or not connected, a drain does nothing. *)
Lemma processPendingMessages_idle Date_now o (w : world) :
  wsConnected (app w) = false \/ pendingMessages (app w) = [] ->
  processPendingMessages Date_now o w = (w, None).
Proof.
  intros [C|P]; unfold processPendingMessages.
  - rewrite C. reflexivity.
  - rewrite P. destruct (wsConnected (app w)); reflexivity.
Qed.

(** C5, as the code has it.  When the entry at the head of the queue is
    taken by a drain and its send fails, the entry has left the queue
    and is not put back, nothing goes out, and no failure is recorded:
    the log gains the "Processing your offline messages..." notice and
    nothing else, and the provider's state is the one a successful send
    leaves. *)
Theorem failed_drain_leaves_no_record (Date_now : nat -> Z) (o : outcome)
        (c : context) (sv : service) (e : PendingMessage)
        (rest : list PendingMessage) :
  wsConnected c = true ->
  pendingMessages c = e :: rest ->
  snd (send (wireOf (settings c) e) o sv) = false ->
  let r := processPendingMessages Date_now o (mkWorld c sv) in
  snd r = Some false
  /\ pendingMessages (app (fst r)) = rest
  /\ messages (app (fst r)) = messages c ++ [processingNotice Date_now]
  /\ ws (fst r) = sv
  /\ (forall o' sv',
         app (fst (processPendingMessages Date_now o' (mkWorld c sv')))
         = app (fst r)).
Proof.
  intros C P F r. subst r.
  rewrite (processPendingMessages_head Date_now o c sv e rest C P).
  cbn [fst snd app ws]. rewrite F.
  repeat split.
  - destruct (send_cases (wireOf (settings c) e) o sv) as [(A & _)|(_ & B)];
      [congruence|exact B].
  - intros o' sv'.
    rewrite (processPendingMessages_head Date_now o' c sv' e rest C P).
    reflexivity.
Qed.

Lemma failed_drain_leaves_no_record_witness :
  wsConnected (app (queued stale)) = true
  /\ snd (send (wireOf DEFAULT_SETTINGS lightsPending) Resolves stale) = false
  /\ pendingMessages
       (app (fst (processPendingMessages (sameMillisecond 1700000060000)
                                         Resolves (queued stale)))) = []
  /\ messages
       (app (fst (processPendingMessages (sameMillisecond 1700000060000)
                                         Resolves (queued stale))))
     = [lights; processingNotice (sameMillisecond 1700000060000)].
Proof.
  assert (F : snd (send (wireOf DEFAULT_SETTINGS lightsPending) Resolves stale)
              = false) by reflexivity.
  split; [reflexivity|split; [exact F|]].
  destruct (failed_drain_leaves_no_record
              (sameMillisecond 1700000060000) Resolves (app (queued stale))
              stale lightsPending [] eq_refl eq_refl F) as (_ & Q & M & _).
  split; [exact Q|exact M].
Defined.

(** C5 as it was claimed fails: the provider believes it is connected,
    the socket has gone, and the queued capture is drained.  [send]
    answers false; the entry is out of the queue; the message it belongs
    to is in the log exactly as before, and the provider ends in the
    very state it ends in when the socket is open and the send goes
    through.  Nothing marks the delivery as failed. *)
Lemma failed_drain_not_reported :
  let failed := processPendingMessages (sameMillisecond 1700000060000)
                                       Resolves (queued stale) in
  let delivered := processPendingMessages (sameMillisecond 1700000060000)
                                          Resolves
                                          (queued (openSince 1700000000000)) in
  snd failed = Some false
  /\ snd delivered = Some true
  /\ transmitted (ws (fst failed)) = []
  /\ pendingMessages (app (fst failed)) = []
  /\ messages (app (fst failed))
     = [lights; processingNotice (sameMillisecond 1700000060000)]
  /\ app (fst failed) = app (fst delivered).
Proof. cbv zeta. repeat split. Qed.

(** *** First in, first out *)

Lemma submit_offline Date_now o (r : submission) (w : world) :
  wsConnected (app w) = false ->
  let w' := submit Date_now o r w in
  pendingMessages (app w') = pendingMessages (app w) ++ [entryOf (Date_now, r)]
  /\ wsConnected (app w') = false
  /\ settings (app w') = settings (app w)
  /\ ws w' = ws w.
Proof.
  intros Off. destruct r as [audioBase64 transcription|text];
    unfold submit, sendAudioToServer, sendTextToServer, entryOf;
    cbn [addMessage wsConnected setMessages setIsProcessingAudio];
    rewrite Off; cbn; rewrite ?Off; repeat split.
Qed.

Lemma submitAll_offline o (rs : list ((nat -> Z) * submission)) :
  forall w : world,
    wsConnected (app w) = false ->
    let w' := submitAll o rs w in
    pendingMessages (app w') = pendingMessages (app w) ++ map entryOf rs
    /\ wsConnected (app w') = false
    /\ settings (app w') = settings (app w)
    /\ ws w' = ws w.
Proof.
  induction rs as [|[Date_now r] rs IH]; intros w Off; cbn [submitAll map].
  - rewrite app_nil_r. repeat split. exact Off.
  - destruct (submit_offline Date_now o r w Off) as (P & C & S & W).
    destruct (IH _ C) as (P' & C' & S' & W').
    cbv zeta in *. rewrite P', P, S', S, W', W, <- app_assoc.
    repeat split. exact C'.
Qed.

(** The socket of a service that was connecting opens: the provider
    learns it is connected; queue and settings are untouched and the
    socket is open. *)
Lemma socketOpens_connected now (w : world) (sk : WebSocket) :
  socket (ws w) = Some sk ->
  handlers sk = true ->
  onConnectCallback (ws w) = true ->
  let w' := socketOpens now w in
  wsConnected (app w') = true
  /\ pendingMessages (app w') = pendingMessages (app w)
  /\ settings (app w') = settings (app w)
  /\ isOpen (ws w') = true
  /\ transmitted (ws w') = transmitted (ws w).
Proof.
  intros E H Cb. unfold socketOpens. rewrite E, H.
  unfold handleOpen, startPingInterval.
  cbn [onConnectCallback withPingInterval withLastPingTime withConnecting
       withConnected withSocket].
  rewrite Cb. cbn. unfold transmitted. rewrite E. repeat split.
Qed.

(** Draining with the socket open: every drain takes the head and hands
    it to the socket. *)
Lemma drain_open (clocks : list (nat -> Z)) :
  forall w : world,
    wsConnected (app w) = true ->
    isOpen (ws w) = true ->
    let w' := drain Resolves clocks w in
    pendingMessages (app w')
    = skipn (List.length clocks) (pendingMessages (app w))
    /\ transmitted (ws w')
       = transmitted (ws w)
         ++ map (wireOf (settings (app w)))
                (firstn (List.length clocks) (pendingMessages (app w))).
Proof.
  induction clocks as [|Date_now clocks IH]; intros [c sv] C O;
    cbn [drain List.length skipn firstn map app ws] in *.
  - rewrite app_nil_r. split; reflexivity.
  - destruct (pendingMessages c) as [|e rest] eqn:P.
    + rewrite processPendingMessages_idle by (right; exact P).
      cbn [fst]. destruct (IH (mkWorld c sv) C O) as (A & B).
      cbn [app ws] in A, B. rewrite P in A, B.
      rewrite skipn_nil in A. rewrite firstn_nil in B.
      split; assumption.
    + rewrite (processPendingMessages_head Date_now Resolves c sv e rest C P).
      cbn [fst].
      destruct (send_open (wireOf (settings c) e) sv O) as (_ & T & O').
      set (sv1 := fst (send (wireOf (settings c) e) Resolves sv)) in *.
      set (c1 := setIsProcessingAudio true _).
      destruct (IH (mkWorld c1 sv1) C O') as (A & B).
      cbn [app ws] in A, B.
      change (pendingMessages c1) with rest in A, B.
      change (settings c1) with (settings c) in B.
      split; [exact A|].
      rewrite B, T, <- app_assoc. reflexivity.
Qed.

(** C2.  Submissions made while the provider is disconnected are
    appended to the queue in the order they are made.  Once the socket
    has opened again, each drain removes the entry at the head and hands
    that entry, and no other, to the socket: after any number of drains
    the socket has been handed exactly that many entries from the front
    of the queue, in submission order, and the rest of the queue is
    still waiting.  Whatever the state and however the send ends, one
    drain takes at most the head out of the queue and passes at most
    that one message on. *)
Theorem offline_queue_drains_fifo
        (w : world) (sk : WebSocket) (o : outcome)
        (rs : list ((nat -> Z) * submission)) (now : Z)
        (clocks : list (nat -> Z)) :
  wsConnected (app w) = false ->
  socket (ws w) = Some sk ->
  handlers sk = true ->
  onConnectCallback (ws w) = true ->
  let queue := pendingMessages (app w) ++ map entryOf rs in
  let submitted := submitAll o rs w in
  let drained := drain Resolves clocks (socketOpens now submitted) in
  pendingMessages (app submitted) = queue
  /\ pendingMessages (app drained) = skipn (List.length clocks) queue
  /\ transmitted (ws drained)
     = transmitted (ws w)
       ++ map (wireOf (settings (app w))) (firstn (List.length clocks) queue)
  /\ (forall Date_now o' (w1 : world),
         let w2 := fst (processPendingMessages Date_now o' w1) in
         (pendingMessages (app w2) = pendingMessages (app w1)
          /\ transmitted (ws w2) = transmitted (ws w1))
         \/ (exists e rest,
                pendingMessages (app w1) = e :: rest
                /\ pendingMessages (app w2) = rest
                /\ (transmitted (ws w2) = transmitted (ws w1)
                    \/ transmitted (ws w2)
                       = transmitted (ws w1)
                         ++ [wireOf (settings (app w1)) e]))).
Proof.
  intros Off E H Cb queue submitted drained.
  destruct (submitAll_offline o rs w Off) as (P & C & S & W).
  fold submitted in P, C, S, W.
  assert (E' : socket (ws submitted) = Some sk) by (rewrite W; exact E).
  assert (Cb' : onConnectCallback (ws submitted) = true)
    by (rewrite W; exact Cb).
  destruct (socketOpens_connected now submitted sk E' H Cb')
    as (C1 & P1 & S1 & O1 & T1).
  destruct (drain_open clocks _ C1 O1) as (A & B).
  fold drained in A, B.
  split; [exact P|]. split; [rewrite A, P1, P; reflexivity|].
  split; [rewrite B, T1, W, P1, P, S1, S; reflexivity|].
  intros Date_now o' [c sv] w2. subst w2.
  destruct (wsConnected c) eqn:Cc;
    [destruct (pendingMessages c) as [|e rest] eqn:Pc|].
  - left. rewrite processPendingMessages_idle by (right; exact Pc).
    split; reflexivity.
  - right. exists e, rest.
    rewrite (processPendingMessages_head Date_now o' c sv e rest Cc Pc).
    cbn [fst app ws pendingMessages setIsProcessingAudio setPendingMessages].
    split; [exact Pc|]. split; [reflexivity|].
    destruct (send_cases (wireOf (settings c) e) o' sv) as [(_ & T & _)|(_ & F)].
    + right. exact T.
    + left. rewrite F. reflexivity.
  - left. rewrite processPendingMessages_idle by (left; exact Cc).
    split; reflexivity.
Qed.

Lemma offline_queue_drains_fifo_witness :
  wsConnected (app offline) = false
  /\ socket (ws offline) = Some (mkWebSocket endpoint WS_CONNECTING true [])
  /\ transmitted
       (ws (drain Resolves [ticking 1700000010000; ticking 1700000010100]
                  (socketOpens 1700000009000
                               (submitAll Resolves threeSubmissions offline))))
     = [audioMessage "UklGRg==" "turn on lights" "guest" "User" "default"
                     1700000001005 "1700000001001";
        textMessage "and the radio" "guest" "User" "default"
                    1700000002005 "1700000002001"]
  /\ pendingMessages
       (app (drain Resolves [ticking 1700000010000; ticking 1700000010100]
                   (socketOpens 1700000009000
                                (submitAll Resolves threeSubmissions offline))))
     = [pendingAudio "UklGRh==" "" 1700000003005 "1700000003001"].
Proof.
  split; [reflexivity|split; [reflexivity|]].
  destruct (offline_queue_drains_fifo
              offline (mkWebSocket endpoint WS_CONNECTING true []) Resolves
              threeSubmissions 1700000009000
              [ticking 1700000010000; ticking 1700000010100]
              eq_refl eq_refl eq_refl eq_refl) as (_ & Q & T & _).
  split; [rewrite T; reflexivity|rewrite Q; reflexivity].
Defined.

End AppContextFacts.

(** ** Keepalive *)
Section WebSocketServiceFacts.
Import Constants WebSocketService Samples.Conversation.

Lemma noUrl_false (s : service) (u : string) :
  url s = Some u -> u <> "" -> noUrl s = false.
Proof.
  intros U N. unfold noUrl. rewrite U.
  destruct (String.eqb_spec u ""); [contradiction|reflexivity].
Qed.

Lemma unresponsive_iff (now t0 : Z) (s : service) :
  lastPingTime s = Some t0 -> t0 <> 0 ->
  unresponsive now s = (60000 <? now - t0).
Proof.
  intros L N. unfold unresponsive. rewrite L.
  destruct (Z.eqb_spec t0 0); [contradiction|reflexivity].
Qed.

Lemma handleMessage_other now m s :
  typeOf m <> Some WS_MESSAGE_TYPES.PONG -> fst (handleMessage now m s) = s.
Proof.
  intros Ty. unfold handleMessage.
  destruct (typeOf m) as [ty|]; [|reflexivity].
  destruct (String.eqb_spec ty WS_MESSAGE_TYPES.PONG) as [->|_];
    [contradiction|reflexivity].
Qed.

(** [disconnect] leaves the service idle and loses no frame. *)
Lemma disconnect_spec (s : service) :
  connected (disconnect s) = false
  /\ connecting (disconnect s) = false
  /\ socket (disconnect s) = None
  /\ pingInterval (disconnect s) = None
  /\ reconnectTimeout (disconnect s) = None
  /\ url (disconnect s) = url s
  /\ transmitted (disconnect s) = transmitted s.
Proof.
  destruct s as [so ur cd cg rt pi lp c1 c2 c3 c4 re].
  destruct so as [sk|]; unfold disconnect, transmitted; cbn.
  - repeat split. rewrite map_app, concat_app. cbn.
    rewrite !app_nil_r. reflexivity.
  - repeat split.
Qed.

(** [connect] on an idle service with a url: a fresh socket, connecting,
    no timer pending. *)
Lemma connect_spec (now : Z) (s : service) (u : string) :
  connecting s = false ->
  url s = Some u ->
  u <> "" ->
  connected (connect now Resolves s) = false
  /\ connecting (connect now Resolves s) = true
  /\ socket (connect now Resolves s) = Some (mkWebSocket u WS_CONNECTING true [])
  /\ pingInterval (connect now Resolves s) = None
  /\ reconnectTimeout (connect now Resolves s) = None
  /\ transmitted (connect now Resolves s) = transmitted s.
Proof.
  intros C U N.
  pose proof (disconnect_spec s) as (D1 & D2 & D3 & D4 & D5 & D6 & D7).
  unfold connect. rewrite C, (noUrl_false s u U N). cbn [orb].
  destruct (disconnect s) as [so ur cd cg rt pi lp c1 c2 c3 c4 re].
  cbn in D1, D2, D3, D4, D5, D6. subst. cbn. rewrite U. cbn.
  repeat split. rewrite <- D7. unfold transmitted. cbn.
  rewrite app_nil_r. reflexivity.
Qed.

Lemma pingIntervalFires_alive now t0 s sk :
  socket s = Some sk -> state sk = WS_OPEN ->
  lastPingTime s = Some t0 -> t0 <> 0 -> now - t0 <= 60000 ->
  pingIntervalFires now Resolves Resolves s
  = withSocket (Some (hand ping sk)) (withPingInterval (Some (now + 30000)) s).
Proof.
  intros E St L T0 Le. unfold pingIntervalFires.
  cbn [socket withPingInterval]. rewrite E, St.
  rewrite (unresponsive_iff now t0) by (trivial; cbn; exact L).
  destruct (Z.ltb_spec 60000 (now - t0)); [lia|reflexivity].
Qed.

Lemma pingIntervalFires_dead now t0 s sk :
  socket s = Some sk -> state sk = WS_OPEN ->
  lastPingTime s = Some t0 -> t0 <> 0 -> 60000 < now - t0 ->
  pingIntervalFires now Resolves Resolves s
  = connect now Resolves
            (disconnect (withSocket (Some (hand ping sk))
                                    (withPingInterval (Some (now + 30000)) s))).
Proof.
  intros E St L T0 Le. unfold pingIntervalFires.
  cbn [socket withPingInterval]. rewrite E, St.
  rewrite (unresponsive_iff now t0) by (trivial; cbn; exact L).
  destruct (Z.ltb_spec 60000 (now - t0)); [reflexivity|lia].
Qed.


(** The run of the timer that finds the session unresponsive. *)
Lemma pingIntervalFires_given_up now t0 s sk u :
  socket s = Some sk -> state sk = WS_OPEN ->
  url s = Some u -> u <> "" ->
  lastPingTime s = Some t0 -> t0 <> 0 -> 60000 < now - t0 ->
  let s' := pingIntervalFires now Resolves Resolves s in
  connected s' = false
  /\ connecting s' = true
  /\ socket s' = Some (mkWebSocket u WS_CONNECTING true [])
  /\ pingInterval s' = None
  /\ reconnectTimeout s' = None
  /\ transmitted s' = transmitted s ++ [ping].
Proof.
  intros E St U N L T0 Lt s'. subst s'.
  rewrite (pingIntervalFires_dead now t0 s sk E St L T0 Lt).
  set (s1 := withSocket (Some (hand ping sk))
                        (withPingInterval (Some (now + 30000)) s)).
  pose proof (disconnect_spec s1) as (_ & D2 & _ & _ & _ & D6 & D7).
  assert (U1 : url (disconnect s1) = Some u) by (rewrite D6; exact U).
  destruct (connect_spec now (disconnect s1) u D2 U1 N)
    as (A & B & C & D & F & G).
  repeat split; trivial.
  rewrite G, D7. subst s1. unfold transmitted.
  cbn [retired withSocket withPingInterval socket hand handed].
  rewrite E, app_assoc. reflexivity.
Qed.

(** C1, as the code has it.  Opening the session notes the time and arms
    the keepalive timer for 30000 ms later.  Of the inbound messages
    only a pong moves the noted time; any other message leaves the
    service as it is.  When the timer runs on an open socket a ping is
    handed to it; if no more than 60000 ms have passed since the noted
    time the session stays as it is, with the timer due again 30000 ms
    later; if more have passed, the socket is given up, the timers are
    cleared and a new connection attempt starts at once (connecting,
    no reconnect delay). *)
Theorem keepalive_counts_pong_only (now t0 : Z) (s : service)
        (sk : WebSocket) (u : string) :
  socket s = Some sk ->
  state sk = WS_OPEN ->
  url s = Some u ->
  u <> "" ->
  lastPingTime s = Some t0 ->
  t0 <> 0 ->
  (connected (fst (handleOpen now s)) = true
   /\ lastPingTime (fst (handleOpen now s)) = Some now
   /\ pingInterval (fst (handleOpen now s)) = Some (now + 30000))
  /\ (forall m, typeOf m <> Some WS_MESSAGE_TYPES.PONG ->
                fst (handleMessage now m s) = s)
  /\ fst (handleMessage now pong s) = withLastPingTime (Some now) s
  /\ (now - t0 <= 60000 ->
      pingIntervalFires now Resolves Resolves s
      = withSocket (Some (hand ping sk))
                   (withPingInterval (Some (now + 30000)) s))
  /\ (60000 < now - t0 ->
      let s' := pingIntervalFires now Resolves Resolves s in
      connected s' = false
      /\ connecting s' = true
      /\ socket s' = Some (mkWebSocket u WS_CONNECTING true [])
      /\ pingInterval s' = None
      /\ reconnectTimeout s' = None
      /\ transmitted s' = transmitted s ++ [ping]).
Proof.
  intros E St U N L T0.
  split; [repeat split|].
  split; [intros m; apply handleMessage_other|].
  split; [reflexivity|].
  split; [apply (pingIntervalFires_alive now t0); assumption|].
  intros Lt. apply (pingIntervalFires_given_up now t0 s sk u); assumption.
Qed.

Lemma receiveAll_other (ms : list (Z * inbound)) (s : service) :
  Forall (fun tm => typeOf (snd tm) <> Some WS_MESSAGE_TYPES.PONG) ms ->
  receiveAll ms s = s.
Proof.
  induction 1 as [|[t m] ms H _ IH]; [reflexivity|].
  cbn [receiveAll]. rewrite (handleMessage_other t m s H). exact IH.
Qed.

(** A session that opens at [t0] and gets no pong is kept through the
    runs of the timer at [t0 + 30000] and [t0 + 60000] and given up at
    the run at [t0 + 90000], whatever other messages arrive in
    between; three pings have gone out by then. *)
Lemma unanswered_session_given_up_at_third_run
      (t0 : Z) (s : service) (sk : WebSocket) (u : string)
      (ms1 ms2 ms3 : list (Z * inbound)) :
  socket s = Some sk ->
  state sk = WS_OPEN ->
  url s = Some u ->
  u <> "" ->
  t0 <> 0 ->
  Forall (fun tm => typeOf (snd tm) <> Some WS_MESSAGE_TYPES.PONG)
         (ms1 ++ ms2 ++ ms3) ->
  let opened := fst (handleOpen t0 s) in
  let first := pingIntervalFires (t0 + 30000) Resolves Resolves
                                 (receiveAll ms1 opened) in
  let second := pingIntervalFires (t0 + 60000) Resolves Resolves
                                  (receiveAll ms2 first) in
  let third := pingIntervalFires (t0 + 90000) Resolves Resolves
                                 (receiveAll ms3 second) in
  connected first = true
  /\ connected second = true
  /\ connected third = false
  /\ connecting third = true
  /\ transmitted third = transmitted s ++ [ping; ping; ping].
Proof.
  intros E St U N T0 F. cbv zeta.
  apply Forall_app in F. destruct F as (F1 & F).
  apply Forall_app in F. destruct F as (F2 & F3).
  set (opened := fst (handleOpen t0 s)).
  assert (Eo : socket opened = Some sk) by exact E.
  assert (Lo : lastPingTime opened = Some t0) by reflexivity.
  assert (Co : connected opened = true) by reflexivity.
  assert (Uo : url opened = Some u) by exact U.
  assert (To : transmitted opened = transmitted s) by reflexivity.
  clearbody opened.
  rewrite (receiveAll_other ms1 opened F1).
  rewrite (pingIntervalFires_alive (t0 + 30000) t0 opened sk Eo St Lo T0)
    by lia.
  set (first := withSocket (Some (hand ping sk)) _).
  assert (E1 : socket first = Some (hand ping sk)) by reflexivity.
  assert (L1 : lastPingTime first = Some t0) by exact Lo.
  assert (C1 : connected first = true) by exact Co.
  assert (U1 : url first = Some u) by exact Uo.
  assert (T1 : transmitted first = transmitted s ++ [ping]).
  { rewrite <- To. unfold first.
    rewrite transmitted_hand by exact Eo. reflexivity. }
  clearbody first.
  rewrite (receiveAll_other ms2 first F2).
  rewrite (pingIntervalFires_alive (t0 + 60000) t0 first (hand ping sk)
                                   E1 St L1 T0) by lia.
  set (second := withSocket (Some (hand ping (hand ping sk))) _).
  assert (E2 : socket second = Some (hand ping (hand ping sk)))
    by reflexivity.
  assert (L2 : lastPingTime second = Some t0) by exact L1.
  assert (C2 : connected second = true) by exact C1.
  assert (U2 : url second = Some u) by exact U1.
  assert (T2 : transmitted second = (transmitted s ++ [ping]) ++ [ping]).
  { rewrite <- T1. unfold second.
    rewrite transmitted_hand by exact E1. reflexivity. }
  clearbody second.
  rewrite (receiveAll_other ms3 second F3).
  assert (Lt : 60000 < t0 + 90000 - t0) by lia.
  destruct (pingIntervalFires_given_up
              (t0 + 90000) t0 second (hand ping (hand ping sk)) u
              E2 St U2 N L2 T0 Lt) as (A & B & _ & _ & _ & G).
  repeat split; trivial.
  rewrite G, T2, <- !app_assoc. reflexivity.
Qed.

Lemma keepalive_counts_pong_only_witness :
  socket (openSince 1700000000000)
  = Some (mkWebSocket endpoint WS_OPEN true [])
  /\ lastPingTime (openSince 1700000000000) = Some 1700000000000
  /\ fst (handleMessage 1700000089000 (errorMessage "busy")
                        (openSince 1700000000000))
     = openSince 1700000000000
  /\ connecting (pingIntervalFires 1700000090000 Resolves Resolves
                                   (openSince 1700000000000)) = true.
Proof.
  assert (N : endpoint <> "") by discriminate.
  assert (T : 1700000000000 <> 0) by lia.
  destruct (keepalive_counts_pong_only
              1700000089000 1700000000000 (openSince 1700000000000)
              (mkWebSocket endpoint WS_OPEN true []) endpoint
              eq_refl eq_refl eq_refl N eq_refl T) as (_ & M & _).
  destruct (keepalive_counts_pong_only
              1700000090000 1700000000000 (openSince 1700000000000)
              (mkWebSocket endpoint WS_OPEN true []) endpoint
              eq_refl eq_refl eq_refl N eq_refl T) as (_ & _ & _ & _ & F).
  split; [reflexivity|split; [reflexivity|split]].
  - apply M. discriminate.
  - apply F. lia.
Defined.

(** C1 as it was claimed fails.  The session opens at 1700000000000; the
    keepalive timer runs 30000, 60000 and 90000 ms later; no pong comes,
    but a reply of the assistant arrives 89000 ms after the opening.
    That message changes nothing in the service, and 1000 ms after it
    the third run of the timer gives the session up: an inbound message
    that is not a pong did not count as a sign of life. *)
Lemma inbound_reply_does_not_keep_alive :
  let t0 := 1700000000000 in
  let s1 := fst (handleOpen t0 opening) in
  let s2 := pingIntervalFires (t0 + 30000) Resolves Resolves s1 in
  let s3 := pingIntervalFires (t0 + 60000) Resolves Resolves s2 in
  let s4 := fst (handleMessage (t0 + 89000)
                               (aiResponse "Done" None None (Some "1")) s3) in
  let s5 := pingIntervalFires (t0 + 90000) Resolves Resolves s4 in
  (pingInterval s1 = Some (t0 + 30000)
   /\ pingInterval s2 = Some (t0 + 60000)
   /\ pingInterval s3 = Some (t0 + 90000))
  /\ (isConnected s3 = true /\ s4 = s3)
  /\ (connected s5 = false /\ connecting s5 = true /\ isOpen s5 = false)
  /\ transmitted s5 = [ping; ping; ping].
Proof. vm_compute. repeat split. Qed.

End WebSocketServiceFacts.

(** ** The silence timer of a recording *)
Section AudioServiceFacts.
Import AudioService Samples.Recording.

Lemma elapse_early t0 threshold cb s t :
  armed t0 threshold cb s -> t < t0 + 2000 -> elapse t s = s.
Proof.
  intros (_ & _ & T) Lt. unfold elapse, fires. rewrite T.
  cbn [pending due setTimeout andb].
  destruct (Z.leb_spec (t0 + 2000) t); [lia|reflexivity].
Qed.

Lemma onData_armed t0 threshold cb s t f :
  armed t0 threshold cb s ->
  armed t threshold cb (onData t f s)
  /\ silenceCalls (onData t f s) = silenceCalls s.
Proof.
  intros (R & Li & T). unfold onData, armed. rewrite Li.
  cbn. rewrite R, Li. repeat split.
Qed.

Lemma lastTime_cons t0 t f (frames : list (Z * frame)) :
  lastTime t0 ((t, f) :: frames) = lastTime t frames.
Proof.
  unfold lastTime. cbn [map fst].
  generalize (map fst frames) as l. intros l. revert t t0.
  induction l as [|x l IH]; intros t t0; [reflexivity|].
  change (last (t :: x :: l) t0) with (last (x :: l) t0).
  rewrite (IH x t0), (IH x t). reflexivity.
Qed.

Lemma feed_dense threshold cb (frames : list (Z * frame)) :
  forall t0 s,
    armed t0 threshold cb s ->
    dense t0 frames ->
    armed (lastTime t0 frames) threshold cb (feed frames s)
    /\ silenceCalls (feed frames s) = silenceCalls s.
Proof.
  induction frames as [|[t f] frames IH]; intros t0 s A D.
  - split; [exact A|reflexivity].
  - destruct D as (Ht & D). cbn [feed].
    rewrite (elapse_early t0 threshold cb s t A) by lia.
    destruct (onData_armed t0 threshold cb s t f A) as (A' & C').
    destruct (IH t (onData t f s) A' D) as (A'' & C'').
    split; [|congruence].
    rewrite lastTime_cons. exact A''.
Qed.

(** A recording started with silence detection: recording, listening
    with the given callback, no timer pending, no call made. *)
Lemma startRecording_listening (o : options) (cb : callback) (s0 : service) :
  detectSilence o = true ->
  onSilenceDetected o = Some cb ->
  let s := startRecording o s0 in
  isRecording s = true
  /\ listener s = Some (thresholdOrDefault o, Some cb)
  /\ (forall t, fires t (silenceTimer s) = false)
  /\ silenceCalls s = silenceCalls s0.
Proof.
  intros D C. unfold startRecording. rewrite D, C.
  destruct s0 as [r i ro st lt li n]. unfold stopRecording. cbn.
  destruct r; cbn; [destruct st as [h|]|destruct st as [h|]]; cbn;
    repeat split.
Qed.

Lemma first_frame_arms (o : options) (cb : callback) (s0 : service) t1 f1 :
  detectSilence o = true ->
  onSilenceDetected o = Some cb ->
  armed t1 (thresholdOrDefault o) cb
        (onData t1 f1 (elapse t1 (startRecording o s0)))
  /\ silenceCalls (onData t1 f1 (elapse t1 (startRecording o s0)))
     = silenceCalls s0.
Proof.
  intros D C.
  destruct (startRecording_listening o cb s0 D C) as (R & L & F & N).
  unfold elapse. rewrite F. unfold onData, armed. rewrite L.
  destruct (startRecording o s0) as [r i ro st lt li n].
  cbn in *. subst. repeat split.
Qed.

(** Once the timer is due it runs: the callback is called once, and
    nothing further is due until another frame comes. *)
Lemma elapse_due t0 threshold cb s t :
  armed t0 threshold cb s ->
  t0 + 2000 <= t ->
  silenceCalls (elapse t s) = S (silenceCalls s)
  /\ (cb = callsStopRecording -> isRecording (elapse t s) = false)
  /\ (forall t', elapse t' (elapse t s) = elapse t s).
Proof.
  intros (R & L & T) Le.
  assert (E : elapse t s = silenceTimerFires s).
  { unfold elapse, fires. rewrite T. cbn [pending due setTimeout andb].
    destruct (Z.leb_spec (t0 + 2000) t); [reflexivity|lia]. }
  rewrite E. clear E.
  destruct s as [r i ro st lt li n]. cbn in R, L, T. subst.
  unfold silenceTimerFires, elapse, fires. cbn.
  destruct cb; cbn; unfold stopRecording; cbn; repeat split; discriminate.
Qed.

(** C3, as the code has it.  In a recording started with silence
    detection every frame, whatever its energy, sets the inactivity
    timer anew for 2000 ms later.  So while frames keep coming less
    than 2000 ms apart the callback is not called; it is called when
    2000 ms have passed since the last frame, once, and a callback that
    stops the recording leaves it stopped. *)
Theorem silence_timer_counts_from_last_frame
        (o : options) (cb : callback) (s0 : service)
        (t1 : Z) (f1 : frame) (frames : list (Z * frame)) :
  detectSilence o = true ->
  onSilenceDetected o = Some cb ->
  dense t1 frames ->
  let s := feed ((t1, f1) :: frames) (startRecording o s0) in
  let tn := lastTime t1 frames in
  silenceCalls s = silenceCalls s0
  /\ isRecording s = true
  /\ silenceTimer s = Some (setTimeout tn 2000)
  /\ (forall t, t < tn + 2000 -> elapse t s = s)
  /\ (forall t, tn + 2000 <= t ->
                silenceCalls (elapse t s) = S (silenceCalls s0)
                /\ (cb = callsStopRecording -> isRecording (elapse t s) = false)
                /\ (forall t', elapse t' (elapse t s) = elapse t s)).
Proof.
  intros D C Dn s tn. subst s tn. cbn [feed].
  destruct (first_frame_arms o cb s0 t1 f1 D C) as (A & N).
  destruct (feed_dense (thresholdOrDefault o) cb frames t1 _ A Dn) as (A' & N').
  rewrite N' , N.
  split; [reflexivity|]. split; [apply A'|]. split; [apply A'|].
  split.
  - intros t Lt. eapply elapse_early; [exact A'|exact Lt].
  - intros t Le.
    destruct (elapse_due _ _ _ _ t A' Le) as (X & Y & Z').
    rewrite X, N', N. repeat split; trivial.
Qed.

Lemma silence_timer_counts_from_last_frame_witness :
  detectSilence handsFree = true
  /\ dense 0 [(1500, loud); (3000, silent)]
  /\ silenceCalls (feed [(0, silent); (1500, loud); (3000, silent)]
                        (startRecording handsFree initial)) = 0%nat
  /\ silenceCalls (elapse 5000
                     (feed [(0, silent); (1500, loud); (3000, silent)]
                           (startRecording handsFree initial))) = 1%nat.
Proof.
  assert (Dn : dense 0 [(1500, loud); (3000, silent)])
    by (cbn; repeat split; lia).
  destruct (silence_timer_counts_from_last_frame
              handsFree callsStopRecording initial 0 silent
              [(1500, loud); (3000, silent)] eq_refl eq_refl Dn)
    as (N & _ & _ & _ & F).
  split; [reflexivity|split; [exact Dn|split; [exact N|]]].
  apply (F 5000). cbn. lia.
Defined.

(** C3 as it was claimed fails.  A recording with silence detection
    receives six frames one second apart, none louder than the
    threshold.  Six and a half seconds in, with no frame above the
    threshold all that time, the callback has not been called and the
    recording goes on: each silent frame set the timer anew, the last
    one for 7000. *)
Lemma silent_recording_never_finalised :
  let s := feed sixSilentFrames (startRecording handsFree initial) in
  allQuiet (thresholdOrDefault handsFree) sixSilentFrames = true
  /\ silenceCalls (elapse 6500 s) = 0%nat
  /\ isRecording (elapse 6500 s) = true
  /\ silenceTimer (elapse 6500 s) = Some (setTimeout 5000 2000).
Proof. vm_compute. repeat split. Qed.

(** The native recorder, for comparison: it sends one
    [onSilenceDetected] event for every buffer it reads and judges
    silent, with no inactivity period. *)
Lemma native_silence_events (isSilence : list Z -> Z -> bool)
      (reads : list (list Z * Z)) :
  snd (AudioModule.writeAudioDataToFile isSilence reads)
  = List.length
      (filter (fun r => (0 <? snd r) && isSilence (fst r) (snd r)) reads).
Proof.
  induction reads as [|[buffer read] reads IH]; [reflexivity|].
  cbn [AudioModule.writeAudioDataToFile filter fst snd].
  destruct (AudioModule.writeAudioDataToFile isSilence reads) as [file events].
  cbn [snd] in IH. subst events.
  destruct (0 <? read); [|reflexivity].
  destruct (isSilence buffer read); reflexivity.
Qed.

End AudioServiceFacts.

(** ** Bluetooth provider: connect outcomes, scanning, start-up *)
Section BluetoothLifecycleFacts.
Import Constants BluetoothContext Samples.Bluetooth.

Lemma find_app_first {A} (f : A -> bool) (l1 l2 : list A) :
  find f (l1 ++ l2)
  = match find f l1 with Some x => Some x | None => find f l2 end.
Proof.
  induction l1 as [|a l1 IH]; [reflexivity|].
  cbn [List.app find]. destruct (f a); [reflexivity|exact IH].
Qed.

Lemma find_none_all {A} (f : A -> bool) (l : list A) :
  find f l = None -> forall x, In x l -> f x = false.
Proof.
  induction l as [|a l IH]; intros H x I; [destruct I|].
  cbn [find] in H. destruct (f a) eqn:E; [discriminate|].
  destruct I as [<-|I]; [exact E|apply IH; assumption].
Qed.

(** The state a connect leaves when it gets as far as the radio;
    [device] is the device found. *)
Lemma connectToDevice_found p deviceId s device :
  isBluetoothEnabled s = true ->
  isInitialized s = true ->
  find (fun d => (id d =? deviceId)%string)
       (discoveredDevices s ++ previousDevices s) = Some device ->
  BleManager_connect p = Resolves ->
  BleManager_retrieveServices p = Resolves ->
  snd (connectToDevice p deviceId s) = Resolved device
  /\ connectedDevice (fst (connectToDevice p deviceId s)) = Some device
  /\ connectionState (fst (connectToDevice p deviceId s)) = CONNECTED
  /\ isScanning (fst (connectToDevice p deviceId s)) = false
  /\ hd_error (previousDevices (fst (connectToDevice p deviceId s)))
     = Some device
  /\ error (fst (connectToDevice p deviceId s))
     = (if isScanning s
        then match BleManager_stopScan p with
             | Resolves => None
             | Rejects _ => Some "Failed to stop scanning"
             end
        else None).
Proof.
  intros En In' F C R. unfold connectToDevice.
  rewrite En, In', F, C, R. cbn [negb orb fst snd].
  destruct s as [en ini sc st er dd cd pd sd]. cbn in *.
  unfold saveDeviceToHistory, stopScan. cbn.
  destruct sc; cbn;
    [destruct (BleManager_stopScan p); cbn; [destruct cd; cbn|]|];
    destruct (AsyncStorage_setItem p); cbn; repeat split.
Qed.

(** X1.  A connect that resolves returns the first device with the
    asked id, the discovered devices being searched before the
    history; it leaves that device connected, the state CONNECTED, the
    scan stopped and the device at the head of the history.  The error
    text is cleared, unless a scan was running and stopping it failed.
    It resolves only with Bluetooth enabled and initialised and both
    calls to the radio resolving. *)
Theorem connect_resolved_state (p : platform) (deviceId : string)
        (s : state) (d : Device) :
  snd (connectToDevice p deviceId s) = Resolved d ->
  (id d = deviceId
   /\ In d (discoveredDevices s ++ previousDevices s)
   /\ ((exists x, In x (discoveredDevices s) /\ id x = deviceId) ->
       In d (discoveredDevices s)))
  /\ (connectedDevice (fst (connectToDevice p deviceId s)) = Some d
      /\ connectionState (fst (connectToDevice p deviceId s)) = CONNECTED
      /\ isScanning (fst (connectToDevice p deviceId s)) = false
      /\ hd_error (previousDevices (fst (connectToDevice p deviceId s)))
         = Some d
      /\ error (fst (connectToDevice p deviceId s))
         = (if isScanning s
            then match BleManager_stopScan p with
                 | Resolves => None
                 | Rejects _ => Some "Failed to stop scanning"
                 end
            else None))
  /\ (isBluetoothEnabled s = true /\ isInitialized s = true
      /\ BleManager_connect p = Resolves
      /\ BleManager_retrieveServices p = Resolves).
Proof.
  intros R.
  assert (G : isBluetoothEnabled s = true /\ isInitialized s = true
              /\ find (fun x => (id x =? deviceId)%string)
                      (discoveredDevices s ++ previousDevices s) = Some d
              /\ BleManager_connect p = Resolves
              /\ BleManager_retrieveServices p = Resolves).
  { revert R. unfold connectToDevice.
    destruct (isBluetoothEnabled s); [|discriminate].
    destruct (isInitialized s); [|discriminate]. cbn [negb orb].
    destruct (find _ _) as [device|]; [|discriminate].
    destruct (BleManager_connect p); [|discriminate].
    destruct (BleManager_retrieveServices p); [|discriminate].
    cbn [snd]. intros [= ->]. repeat split. }
  destruct G as (En & In' & F & C & Rs).
  split; [|split; [|repeat split; assumption]].
  - pose proof (find_some _ _ F) as (I & E).
    apply String.eqb_eq in E. split; [exact E|]. split; [exact I|].
    intros (x & Ix & Ex). rewrite find_app_first in F.
    destruct (find (fun x0 => (id x0 =? deviceId)%string) (discoveredDevices s))
      as [y|] eqn:Fd.
    + injection F as <-. apply (find_some _ _ Fd).
    + pose proof (find_none_all _ _ Fd x Ix) as N. cbn in N.
      rewrite Ex, String.eqb_refl in N. discriminate.
  - destruct (connectToDevice_found p deviceId s d En In' F C Rs)
      as (_ & A & B & Cc & D & E).
    repeat split; assumption.
Qed.

Lemma connect_resolved_state_witness :
  snd (connectToDevice radioUp (id earbuds) ready) = Resolved earbuds
  /\ connectedDevice (fst (connectToDevice radioUp (id earbuds) ready))
     = Some earbuds
  /\ connectionState (fst (connectToDevice radioUp (id earbuds) ready))
     = CONNECTED.
Proof.
  assert (R : snd (connectToDevice radioUp (id earbuds) ready)
              = Resolved earbuds) by reflexivity.
  destruct (connect_resolved_state radioUp (id earbuds) ready earbuds R)
    as (_ & (A & B & _) & _).
  split; [exact R|split; [exact A|exact B]].
Defined.

Lemma connectToDevice_rejected (p : platform) (deviceId : string)
        (s : state) (m : string) :
  snd (connectToDevice p deviceId s) = Rejected m ->
  connectedDevice (fst (connectToDevice p deviceId s)) = connectedDevice s
  /\ previousDevices (fst (connectToDevice p deviceId s)) = previousDevices s
  /\ storedDevices (fst (connectToDevice p deviceId s)) = storedDevices s
  /\ (isBluetoothEnabled s && isInitialized s = true ->
      connectionState (fst (connectToDevice p deviceId s)) = ERROR
      /\ error (fst (connectToDevice p deviceId s))
         = Some ("Failed to connect to device: " ++ m)%string)
  /\ (isBluetoothEnabled s && isInitialized s = false ->
      fst (connectToDevice p deviceId s) = s
      /\ m = "Bluetooth is not available").
Proof.
  unfold connectToDevice, connectFailed, saveDeviceToHistory, stopScan.
  destruct s as [en ini sc st er dd cd pd sd]. cbn.
  destruct en, ini; cbn; try (intros [= <-]; repeat split; discriminate).
  destruct (find _ _) as [device|];
    [destruct (BleManager_connect p);
     [destruct (BleManager_retrieveServices p)|]|]; cbn;
    try discriminate;
    intros [= <-];
    (destruct sc; cbn;
     [destruct (BleManager_stopScan p); cbn; [destruct cd; cbn|]|]);
    repeat split; discriminate.
Qed.

(** X2.  A connect that rejects never changes which device is recorded
    as connected, nor the history, nor what storage holds.  When
    Bluetooth was enabled and initialised it leaves the state ERROR
    with the error text built from the message it rejects with;
    otherwise it leaves the whole state as it was. *)
Theorem connect_rejected_state (p : platform) (deviceId : string)
        (s : state) (m : string) :
  snd (connectToDevice p deviceId s) = Rejected m ->
  connectedDevice (fst (connectToDevice p deviceId s)) = connectedDevice s
  /\ previousDevices (fst (connectToDevice p deviceId s)) = previousDevices s
  /\ storedDevices (fst (connectToDevice p deviceId s)) = storedDevices s
  /\ (isBluetoothEnabled s && isInitialized s = true ->
      connectionState (fst (connectToDevice p deviceId s)) = ERROR
      /\ error (fst (connectToDevice p deviceId s))
         = Some ("Failed to connect to device: " ++ m)%string)
  /\ (isBluetoothEnabled s && isInitialized s = false ->
      fst (connectToDevice p deviceId s) = s
      /\ m = "Bluetooth is not available").
Proof. apply connectToDevice_rejected. Qed.

Lemma connect_rejected_state_witness :
  snd (connectToDevice radioDown (id earbuds) (connectedTo headset))
  = Rejected "Connection failed"
  /\ connectedDevice (fst (connectToDevice radioDown (id earbuds)
                                           (connectedTo headset)))
     = Some headset
  /\ connectionState (fst (connectToDevice radioDown (id earbuds)
                                           (connectedTo headset)))
     = ERROR.
Proof.
  assert (R : snd (connectToDevice radioDown (id earbuds) (connectedTo headset))
              = Rejected "Connection failed") by reflexivity.
  destruct (connect_rejected_state radioDown (id earbuds) (connectedTo headset)
                                   "Connection failed" R)
    as (A & _ & _ & B & _).
  split; [exact R|split; [exact A|apply B; reflexivity]].
Defined.

(** X3.  Disconnecting is idempotent: once a disconnect was made, a
    second one for the same id changes nothing, whatever the radio
    answers; and a disconnect for an id other than the connected
    device's never changes anything. *)
Theorem disconnect_idempotent (p1 p2 : platform) (deviceId : string)
        (s : state) :
  disconnectFromDevice p2 deviceId (disconnectFromDevice p1 deviceId s)
  = disconnectFromDevice p1 deviceId s
  /\ (forall d, connectedDevice s = Some d -> id d <> deviceId ->
                disconnectFromDevice p1 deviceId s = s).
Proof.
  split.
  - unfold disconnectFromDevice at 2 3.
    destruct (notCurrentDevice deviceId s) eqn:N.
    + unfold disconnectFromDevice. rewrite N. reflexivity.
    + assert (E : forall s', connectedDevice s' = None ->
                             disconnectFromDevice p2 deviceId s' = s').
      { intros s' C. unfold disconnectFromDevice, notCurrentDevice.
        rewrite C, orb_true_r. reflexivity. }
      destruct (BleManager_disconnect p1); apply E; reflexivity.
  - intros d C Ne. unfold disconnectFromDevice, notCurrentDevice. rewrite C.
    destruct (String.eqb_spec (id d) deviceId); [contradiction|].
    rewrite orb_true_r. reflexivity.
Qed.

(** X4.  A scan that was started is not ended by the two timers
    [startScan] sets: they are closures of the render in which the scan
    was not yet running, so their [stopScan] returns at once.  After
    both timers the example devices are listed and the provider is
    still scanning, in state SCANNING. *)
Theorem scan_timers_leave_scan_running (scan : outcome) (p1 p2 : platform)
        (render : state) :
  snd (startScan scan render) = true ->
  let s1 := fst (startScan scan render) in
  let s2 := scanResultsArrive p1 render s1 in
  let s3 := scanTimeoutFires p2 render s2 in
  (isScanning s1 = true /\ connectionState s1 = SCANNING
   /\ discoveredDevices s1 = [] /\ error s1 = None)
  /\ discoveredDevices s3 = exampleDevices
  /\ isScanning s3 = true
  /\ connectionState s3 = SCANNING
  /\ s3 = setDiscoveredDevices exampleDevices s1.
Proof.
  unfold startScan, scanResultsArrive, scanTimeoutFires, stopScan.
  destruct render as [en ini sc st er dd cd pd sd]. cbn.
  destruct en, ini; cbn; try discriminate.
  destruct sc; cbn; try discriminate.
  destruct scan; cbn; try discriminate.
  intros _. repeat split.
Qed.

Lemma scan_timers_leave_scan_running_witness :
  snd (startScan Resolves ready) = true
  /\ isScanning (scanTimeoutFires radioUp ready
                   (scanResultsArrive radioUp ready
                      (fst (startScan Resolves ready)))) = true.
Proof.
  assert (T : snd (startScan Resolves ready) = true) by reflexivity.
  destruct (scan_timers_leave_scan_running Resolves radioUp radioUp ready T)
    as (_ & _ & S & _).
  split; [exact T|exact S].
Defined.

(** X5.  A scan is ended by a [stopScan] of a later render, one that
    sees the scan running: scanning ends, and the state goes back to
    CONNECTED when a device is connected and to DISCONNECTED otherwise.
    If the radio refuses to stop, scanning is still marked as ended,
    the error text says so and the state stays as it was. *)
Theorem stopScan_ends_scan (p : platform) (s : state) :
  isScanning s = true ->
  isScanning (stopScan p s s) = false
  /\ (BleManager_stopScan p = Resolves ->
      connectionState (stopScan p s s)
      = match connectedDevice s with
        | Some _ => CONNECTED
        | None => DISCONNECTED
        end
      /\ error (stopScan p s s) = error s)
  /\ (forall m, BleManager_stopScan p = Rejects m ->
                connectionState (stopScan p s s) = connectionState s
                /\ error (stopScan p s s) = Some "Failed to stop scanning")
  /\ connectedDevice (stopScan p s s) = connectedDevice s
  /\ discoveredDevices (stopScan p s s) = discoveredDevices s.
Proof.
  intros Sc. unfold stopScan. rewrite Sc. cbn [negb].
  destruct s as [en ini sc st er dd cd pd sd]. cbn.
  destruct (BleManager_stopScan p); cbn; [destruct cd; cbn|];
    repeat split; try discriminate; intros; discriminate.
Qed.

Lemma stopScan_ends_scan_witness :
  isScanning (fst (startScan Resolves ready)) = true
  /\ isScanning (stopScan radioUp (fst (startScan Resolves ready))
                          (fst (startScan Resolves ready))) = false.
Proof.
  assert (Sc : isScanning (fst (startScan Resolves ready)) = true)
    by reflexivity.
  split; [exact Sc|].
  exact (proj1 (stopScan_ends_scan radioUp _ Sc)).
Defined.

End BluetoothLifecycleFacts.

(** ** Permissions and start-up *)
Section StartupFacts.
Import Constants PermissionsService BluetoothContext.

Lemma checkPermission_allowed check p :
  checkPermission check p = true <-> allowed (check p).
Proof.
  unfold checkPermission, allowed.
  destruct (check p) as [[]|]; split; intros H; try reflexivity;
    try discriminate; try (now left); try (now right);
    destruct H as [H|H]; discriminate.
Qed.

(** X6.  On Android the Bluetooth permissions count as granted exactly
    when both the connect and the scan permission are granted or
    limited; a check that throws counts as not granted; on a platform
    that is neither Android nor iOS they never count as granted. *)
Theorem hasBluetoothPermissions_android (check : permission -> option RESULTS) :
  (hasBluetoothPermissions android check = true
   <-> allowed (check ANDROID_BLUETOOTH_CONNECT)
       /\ allowed (check ANDROID_BLUETOOTH_SCAN))
  /\ (check ANDROID_BLUETOOTH_CONNECT = None ->
      hasBluetoothPermissions android check = false)
  /\ (check ANDROID_BLUETOOTH_SCAN = None ->
      hasBluetoothPermissions android check = false)
  /\ hasBluetoothPermissions otherOS check = false.
Proof.
  unfold hasBluetoothPermissions. cbn [forallb].
  rewrite <- !checkPermission_allowed.
  split; [|split; [|split; [|reflexivity]]].
  - destruct (checkPermission check ANDROID_BLUETOOTH_CONNECT),
             (checkPermission check ANDROID_BLUETOOTH_SCAN); cbn;
      split; try tauto; try discriminate; intros (A & B); discriminate.
  - intros N. unfold checkPermission. rewrite N. reflexivity.
  - intros N. unfold checkPermission at 2. rewrite N.
    destruct (checkPermission check ANDROID_BLUETOOTH_CONNECT); reflexivity.
Qed.

(** X7.  After [initializeBluetooth] on a freshly mounted provider,
    Bluetooth is enabled and initialised exactly when the permissions
    are granted, the BLE manager started and it reports the state
    "on".  In every other case each connect rejects with "Bluetooth is
    not available" and changes nothing, and a scan only sets that
    error text. *)
Theorem bluetooth_available_after_initialize
        (os : OS) (check : permission -> option RESULTS)
        (start : outcome) (checkState : result string)
        (stored : option (list Device)) :
  let s := initializeBluetooth os check start checkState (mounted stored) in
  (isBluetoothEnabled s && isInitialized s = true
   <-> hasBluetoothPermissions os check = true
       /\ start = Resolves /\ checkState = Resolved "on")
  /\ (isBluetoothEnabled s && isInitialized s = false ->
      (forall p deviceId,
          connectToDevice p deviceId s
          = (s, Rejected "Bluetooth is not available"))
      /\ (forall scan,
             startScan scan s
             = (setError (Some "Bluetooth is not available") s, false))).
Proof.
  intros s. subst s. unfold initializeBluetooth, mounted.
  split.
  - destruct (hasBluetoothPermissions os check); cbn.
    + destruct start; [destruct checkState as [enabled|m]|]; cbn.
      * destruct (String.eqb_spec enabled "on") as [->|N]; cbn.
        -- split; [intros _; repeat split|reflexivity].
        -- split; [discriminate|]. intros (_ & _ & [= E]). contradiction.
      * split; [discriminate|]. intros (_ & _ & [=]).
      * split; [discriminate|]. intros (_ & [=] & _).
    + split; [discriminate|]. intros ([=] & _).
  - set (s := if negb (hasBluetoothPermissions os check) then _ else _).
    clearbody s. intros F. split.
    + intros p deviceId. unfold connectToDevice.
      destruct (isBluetoothEnabled s), (isInitialized s);
        try discriminate F; reflexivity.
    + intros scan. unfold startScan.
      destruct (isBluetoothEnabled s), (isInitialized s);
        try discriminate F; reflexivity.
Qed.

End StartupFacts.

(** ** The device history across a restart *)
Section HistoryRestartFacts.
Import Constants BluetoothContext Samples.Bluetooth.

Lemma storedDevices_stopScan p render s :
  storedDevices (stopScan p render s) = storedDevices s.
Proof.
  unfold stopScan.
  destruct (isScanning render); cbn; [|reflexivity].
  destruct (BleManager_stopScan p); cbn; [|reflexivity].
  destruct (connectedDevice render); reflexivity.
Qed.

Lemma perform_inSync (c : call) (s : state) :
  storageUp c -> inSync s -> inSync (fst (perform c s)).
Proof.
  intros U I. destruct c as [p deviceId|p deviceId]; cbn in U |- *.
  - destruct (connectToDevice p deviceId s) as [s' [d|m]] eqn:E; cbn [fst].
    + revert E. unfold connectToDevice.
      destruct (negb (isBluetoothEnabled s) || negb (isInitialized s));
        [discriminate|].
      destruct (find _ _) as [device|]; [|discriminate].
      destruct (BleManager_connect p); [|discriminate].
      destruct (BleManager_retrieveServices p); [|discriminate].
      unfold saveDeviceToHistory. rewrite U.
      intros [= <- _]. left. reflexivity.
    + assert (R : snd (connectToDevice p deviceId s) = Rejected m)
        by (rewrite E; reflexivity).
      destruct (connectToDevice_rejected p deviceId s m R) as (_ & P1 & P2 & _).
      rewrite E in P1, P2. cbn [fst] in P1, P2.
      unfold inSync. rewrite P1, P2. exact I.
  - unfold disconnectFromDevice.
    destruct (notCurrentDevice deviceId s); [exact I|].
    destruct (BleManager_disconnect p); exact I.
Qed.

Lemma run_inSync (cs : list call) :
  forall s, Forall storageUp cs -> inSync s -> inSync (fst (run cs s)).
Proof.
  induction cs as [|c cs IH]; intros s F I; [exact I|].
  inversion F as [|? ? U F']; subst. cbn [run].
  pose proof (perform_inSync c s U I) as I1.
  destruct (perform c s) as [s1 d]. cbn [fst] in I1.
  specialize (IH s1 F' I1).
  destruct (run cs s1) as [s2 ds]. exact IH.
Qed.

(** X8.  The history survives a restart.  If storage took every write,
    then after any connects and disconnects, closing the app and
    mounting the provider again restores exactly the history the
    provider had - same devices, same order.  The restart does not
    connect to anything: the effect that loads the history belongs to
    the first render, in which Bluetooth is not yet enabled. *)
Theorem history_survives_restart (cs : list call) (s0 : state)
        (p : platform) :
  Forall storageUp cs ->
  inSync s0 ->
  let s := fst (run cs s0) in
  let s' := loadPreviousDevices Resolves p (restarted s) (restarted s) in
  previousDevices s' = previousDevices s
  /\ connectedDevice s' = None
  /\ connectionState s' = DISCONNECTED
  /\ storedDevices s' = storedDevices s.
Proof.
  intros F I s s'. subst s'.
  pose proof (run_inSync cs s0 F I) as J. fold s in J.
  unfold loadPreviousDevices, restarted, mounted.
  cbn [storedDevices isBluetoothEnabled isInitialized andb].
  destruct J as [J|(J1 & J2)].
  - rewrite J. destruct (previousDevices s); cbn; repeat split.
  - rewrite J1, J2. repeat split.
Qed.

Lemma history_survives_restart_witness :
  Forall storageUp [Connect radioUp (id headset); Connect radioUp (id earbuds)]
  /\ inSync ready
  /\ previousDevices
       (loadPreviousDevices Resolves radioUp
          (restarted (fst (run [Connect radioUp (id headset);
                                Connect radioUp (id earbuds)] ready)))
          (restarted (fst (run [Connect radioUp (id headset);
                                Connect radioUp (id earbuds)] ready))))
     = [earbuds; headset].
Proof.
  assert (F : Forall storageUp [Connect radioUp (id headset);
                                Connect radioUp (id earbuds)])
    by (repeat constructor).
  assert (I : inSync ready) by (right; split; reflexivity).
  split; [exact F|split; [exact I|]].
  exact (proj1 (history_survives_restart _ ready radioUp F I)).
Defined.

(** X9.  Once the connected device was disconnected, data can no longer
    be sent to or read from it: both calls reject with "No device
    connected" and leave the state alone. *)
Theorem no_data_after_disconnect (p : platform) (write : outcome)
        (read : result (list Z)) (deviceId : string) (d : Device)
        (s : state) :
  connectedDevice s = Some d ->
  id d = deviceId ->
  deviceId <> "" ->
  let s' := disconnectFromDevice p deviceId s in
  sendDataToDevice write s' = (s', Rejected "No device connected")
  /\ readDataFromDevice read s' = (s', Rejected "No device connected").
Proof.
  intros C I N s'.
  assert (E : connectedDevice s' = None).
  { subst s'. unfold disconnectFromDevice, notCurrentDevice.
    rewrite C, I, String.eqb_refl.
    destruct (String.eqb_spec deviceId ""); [contradiction|]. cbn.
    destruct (BleManager_disconnect p); reflexivity. }
  unfold sendDataToDevice, readDataFromDevice. rewrite E.
  split; reflexivity.
Qed.

Lemma no_data_after_disconnect_witness :
  connectedDevice (connectedTo headset) = Some headset
  /\ id headset <> ""
  /\ snd (sendDataToDevice Resolves
            (disconnectFromDevice radioUp (id headset) (connectedTo headset)))
     = Rejected "No device connected".
Proof.
  assert (N : id headset <> "") by discriminate.
  split; [reflexivity|split; [exact N|]].
  rewrite (proj1 (no_data_after_disconnect radioUp Resolves (Resolved [])
                    (id headset) headset (connectedTo headset)
                    eq_refl eq_refl N)).
  reflexivity.
Defined.

End HistoryRestartFacts.

(** ** The socket service: sending, reconnecting, staying alive *)
Section WebSocketMoreFacts.
Import Constants WebSocketService Samples.Conversation.

(** X10.  [send] answers true exactly when the socket is open and takes
    the frame; the frame is then the last one handed to the platform
    and the flags and timers of the service are untouched.  When it
    answers false - no socket, a socket that is not open, or a socket
    that throws - the service is left exactly as it was. *)
Theorem send_true_iff_open (m : outbound) (o : outcome) (s : service) :
  (snd (send m o s) = true <-> isOpen s = true /\ o = Resolves)
  /\ (snd (send m o s) = true ->
      transmitted (fst (send m o s)) = transmitted s ++ [m]
      /\ connected (fst (send m o s)) = connected s
      /\ connecting (fst (send m o s)) = connecting s
      /\ pingInterval (fst (send m o s)) = pingInterval s
      /\ lastPingTime (fst (send m o s)) = lastPingTime s
      /\ reconnectTimeout (fst (send m o s)) = reconnectTimeout s)
  /\ (snd (send m o s) = false -> fst (send m o s) = s).
Proof.
  unfold send, isOpen, transmitted.
  destruct s as [so ur cd cg rt pi lp c1 c2 c3 c4 re]. cbn.
  destruct so as [sk|]; cbn.
  - destruct (state sk), o; cbn;
      (split; [split; [intros H|intros (A & B)]|split; [intros H|intros H]]);
      try discriminate; try reflexivity; try (split; reflexivity).
    repeat split. rewrite app_assoc. reflexivity.
  - split; [split; [intros H|intros (A & B)]|split; [intros H|intros H]];
      try discriminate; reflexivity.
Qed.

(** A failed construction of the socket leaves the service idle with
    the reconnect timer set anew. *)
Lemma connect_fails (now : Z) (m : string) (s : service) (u : string) :
  connecting s = false ->
  url s = Some u ->
  u <> "" ->
  connected (connect now (Rejects m) s) = false
  /\ connecting (connect now (Rejects m) s) = false
  /\ url (connect now (Rejects m) s) = Some u
  /\ socket (connect now (Rejects m) s) = None
  /\ reconnectTimeout (connect now (Rejects m) s)
     = Some (setTimeout now TIME.WEBSOCKET_RECONNECT_INTERVAL).
Proof.
  intros C U N. unfold connect. rewrite C, (noUrl_false s u U N). cbn [orb].
  destruct s as [so ur cd cg rt pi lp c1 c2 c3 c4 re]. cbn in U. subst ur.
  unfold disconnect. cbn. destruct so; cbn; repeat split.
Qed.

Lemma failedAttempts_idle (n : nat) (m : string) (u : string) :
  u <> "" ->
  forall (t : Z) (s : service),
    connecting s = false ->
    url s = Some u ->
    let s' := failedAttempts n t m s in
    connected s = false ->
    reconnectTimeout s = Some (setTimeout t TIME.WEBSOCKET_RECONNECT_INTERVAL) ->
    connected s' = false
    /\ connecting s' = false
    /\ url s' = Some u
    /\ reconnectTimeout s'
       = Some (setTimeout (t + 5000 * Z.of_nat n)
                          TIME.WEBSOCKET_RECONNECT_INTERVAL).
Proof.
  intros N. induction n as [|n IH]; intros t s C U s' Cd R; subst s'.
  - cbn [failedAttempts]. rewrite Z.mul_0_r, Z.add_0_r. repeat split; assumption.
  - cbn [failedAttempts]. unfold reconnectTimeoutFires.
    set (s1 := withReconnectTimeout (fired (reconnectTimeout s)) s).
    assert (C1 : connecting s1 = false) by exact C.
    assert (U1 : url s1 = Some u) by exact U.
    destruct (connect_fails (t + TIME.WEBSOCKET_RECONNECT_INTERVAL) m s1 u
                            C1 U1 N) as (A & B & D & _ & E).
    destruct (IH _ _ B D A E) as (A' & B' & D' & E').
    repeat split; try assumption.
    rewrite E'. f_equal. f_equal. unfold TIME.WEBSOCKET_RECONNECT_INTERVAL. lia.
Qed.

(** X11.  Reconnection is retried without bound.  After the socket
    closed at [t], however many times in a row the construction of a
    new socket fails, the service is left idle with the reconnect timer
    pending for 5000 ms after the last attempt - it is due at
    [t + 5000 * (n + 1)] and not before - and the first construction
    that succeeds leaves it connecting on a fresh socket with no timer
    pending. *)
Theorem reconnect_retries_without_bound (n : nat) (t : Z) (m : string)
        (s : service) (u : string) :
  url s = Some u ->
  u <> "" ->
  let s' := failedAttempts n t m (fst (handleClose t s)) in
  connected s' = false
  /\ connecting s' = false
  /\ (forall t', fires t' (reconnectTimeout s')
                 = (t + 5000 * (Z.of_nat n + 1) <=? t'))
  /\ connecting (reconnectTimeoutFires (t + 5000 * (Z.of_nat n + 1))
                                       Resolves s') = true
  /\ socket (reconnectTimeoutFires (t + 5000 * (Z.of_nat n + 1)) Resolves s')
     = Some (mkWebSocket u WS_CONNECTING true [])
  /\ reconnectTimeout (reconnectTimeoutFires (t + 5000 * (Z.of_nat n + 1))
                                             Resolves s') = None.
Proof.
  intros U N s'.
  assert (H : connected s' = false /\ connecting s' = false
              /\ url s' = Some u
              /\ reconnectTimeout s'
                 = Some (setTimeout (t + 5000 * Z.of_nat n)
                                    TIME.WEBSOCKET_RECONNECT_INTERVAL)).
  { subst s'. apply (failedAttempts_idle n m u N); try reflexivity. exact U. }
  clearbody s'. destruct H as (A & B & D & E).
  split; [exact A|]. split; [exact B|]. split.
  - intros t'. rewrite E. unfold fires, setTimeout. cbn [pending due andb].
    unfold TIME.WEBSOCKET_RECONNECT_INTERVAL.
    destruct (Z.leb_spec (t + 5000 * Z.of_nat n + 5000) t'),
             (Z.leb_spec (t + 5000 * (Z.of_nat n + 1)) t'); try reflexivity; lia.
  - unfold reconnectTimeoutFires.
    set (s1 := withReconnectTimeout (fired (reconnectTimeout s')) s').
    assert (C1 : connecting s1 = false) by exact B.
    assert (U1 : url s1 = Some u) by exact D.
    destruct (connect_spec (t + 5000 * (Z.of_nat n + 1)) s1 u C1 U1 N)
      as (_ & X & Y & _ & Z' & _).
    repeat split; assumption.
Qed.

Lemma reconnect_retries_without_bound_witness :
  url (openSince 1700000000000) = Some endpoint
  /\ endpoint <> ""
  /\ fires 1700000064999
           (reconnectTimeout
              (failedAttempts 3 1700000045000 "refused"
                 (fst (handleClose 1700000045000 (openSince 1700000000000)))))
     = false
  /\ fires 1700000065000
           (reconnectTimeout
              (failedAttempts 3 1700000045000 "refused"
                 (fst (handleClose 1700000045000 (openSince 1700000000000)))))
     = true.
Proof.
  assert (N : endpoint <> "") by discriminate.
  destruct (reconnect_retries_without_bound
              3 1700000045000 "refused" (openSince 1700000000000) endpoint
              eq_refl N) as (_ & _ & F & _).
  split; [reflexivity|split; [exact N|split]]; rewrite F; reflexivity.
Defined.

Lemma unresponsive_recent (now tl : Z) (s : service) :
  lastPingTime s = Some tl -> now - tl <= 60000 -> unresponsive now s = false.
Proof.
  intros L Le. unfold unresponsive. rewrite L.
  destruct (Z.ltb_spec 60000 (now - tl)); [lia|apply andb_false_r].
Qed.

(** One answered round of the keepalive. *)
Lemma answered_round (t delay tl : Z) (s : service) (sk : WebSocket) :
  socket s = Some sk ->
  state sk = WS_OPEN ->
  lastPingTime s = Some tl ->
  t - 30000 <= tl ->
  let s' := fst (handleMessage (t + 30000 + delay) pong
                   (pingIntervalFires (t + 30000) Resolves Resolves s)) in
  socket s' = Some (hand ping sk)
  /\ lastPingTime s' = Some (t + 30000 + delay)
  /\ connected s' = connected s
  /\ connecting s' = connecting s
  /\ pingInterval s' = Some (t + 30000 + 30000)
  /\ transmitted s' = transmitted s ++ [ping].
Proof.
  intros E St L Le.
  destruct s as [so ur cd cg rt pi lp c1 c2 c3 c4 re]. cbn in E, L. subst.
  unfold pingIntervalFires, unresponsive, handleMessage, transmitted.
  cbn. rewrite St. cbn.
  destruct (Z.ltb_spec 60000 (t + 30000 - tl)); [lia|].
  rewrite andb_false_r. cbn. repeat split. rewrite app_assoc. reflexivity.
Qed.

Lemma answeredRounds_alive (delays : list Z) :
  Forall (fun d => 0 <= d < 30000) delays ->
  forall (t tl : Z) (s : service) (sk : WebSocket),
    socket s = Some sk ->
    state sk = WS_OPEN ->
    lastPingTime s = Some tl ->
    t - 30000 <= tl ->
    connected (answeredRounds delays t s) = connected s
    /\ connecting (answeredRounds delays t s) = connecting s
    /\ isOpen (answeredRounds delays t s) = true
    /\ transmitted (answeredRounds delays t s)
       = transmitted s ++ repeat ping (List.length delays)
    /\ (delays <> [] ->
        pingInterval (answeredRounds delays t s)
        = Some (t + 30000 * Z.of_nat (List.length delays) + 30000)).
Proof.
  induction 1 as [|d delays Hd _ IH]; intros t tl s sk E St L Le.
  - cbn [answeredRounds List.length repeat]. rewrite app_nil_r.
    repeat split; try congruence.
    unfold isOpen. rewrite E, St. reflexivity.
  - cbn [answeredRounds].
    destruct (answered_round t d tl s sk E St L Le) as (E1 & L1 & C1 & G1 & P1 & T1).
    assert (St1 : state (hand ping sk) = WS_OPEN) by exact St.
    assert (Le1 : t + 30000 - 30000 <= t + 30000 + d) by lia.
    destruct (IH (t + 30000) _ _ _ E1 St1 L1 Le1) as (A & B & C & D & F).
    rewrite A, B, D, T1, C1, G1. split; [reflexivity|]. split; [reflexivity|].
    split; [exact C|]. split.
    + cbn [List.length repeat]. rewrite <- app_assoc. reflexivity.
    + intros _. destruct delays as [|d' delays'].
      * cbn [answeredRounds List.length]. rewrite P1. f_equal; lia.
      * rewrite F by discriminate. f_equal. cbn [List.length]. lia.
Qed.

(** X12.  A link that answers is never given up.  From the opening of
    the session on, for any number of keepalive rounds in which the
    pong arrives before the next run of the timer, the session stays
    connected with its socket open, and exactly one ping per round has
    gone out. *)
Theorem answered_keepalive_never_gives_up (delays : list Z) (t : Z)
        (s : service) (sk : WebSocket) :
  socket s = Some sk ->
  state sk = WS_OPEN ->
  Forall (fun d => 0 <= d < 30000) delays ->
  let s' := answeredRounds delays t (fst (handleOpen t s)) in
  connected s' = true
  /\ connecting s' = false
  /\ isOpen s' = true
  /\ transmitted s' = transmitted s ++ repeat ping (List.length delays).
Proof.
  intros E St F s'.
  assert (Le : t - 30000 <= t) by lia.
  destruct (answeredRounds_alive delays F t t (fst (handleOpen t s)) sk
                                 E St eq_refl Le) as (A & B & C & D & _).
  subst s'. rewrite A, B, D. repeat split. exact C.
Qed.

Lemma answered_keepalive_never_gives_up_witness :
  socket opening = Some (mkWebSocket endpoint WS_OPEN true [])
  /\ Forall (fun d => 0 <= d < 30000) [120; 29000; 5; 800]
  /\ connected (answeredRounds [120; 29000; 5; 800] 1700000000000
                               (fst (handleOpen 1700000000000 opening)))
     = true
  /\ transmitted (answeredRounds [120; 29000; 5; 800] 1700000000000
                                 (fst (handleOpen 1700000000000 opening)))
     = [ping; ping; ping; ping].
Proof.
  assert (F : Forall (fun d => 0 <= d < 30000) [120; 29000; 5; 800])
    by (repeat constructor; lia).
  destruct (answered_keepalive_never_gives_up
              [120; 29000; 5; 800] 1700000000000 opening
              (mkWebSocket endpoint WS_OPEN true []) eq_refl eq_refl F)
    as (A & _ & _ & T).
  split; [reflexivity|split; [exact F|split; [exact A|exact T]]].
Defined.

Lemma wellFormed_disconnect (s : service) :
  wellFormed s -> wellFormed (disconnect s).
Proof.
  destruct s as [so ur cd cg rt pi lp c1 c2 c3 c4 re].
  unfold wellFormed, disconnect. cbn. intros (_ & _ & _ & D).
  destruct so as [sk|]; cbn.
  - split; [reflexivity|]. split; [discriminate|]. split; [discriminate|].
    constructor; [|exact D]. cbn. split; [reflexivity|].
    destruct (state sk); discriminate.
  - split; [reflexivity|]. split; [discriminate|]. split; [discriminate|].
    exact D.
Qed.

Lemma wellFormed_connect (now : Z) (c : outcome) (s : service) :
  wellFormed s -> wellFormed (connect now c s).
Proof.
  intros H. unfold connect. destruct (connecting s || noUrl s); [exact H|].
  pose proof (wellFormed_disconnect s H) as W.
  pose proof (disconnect_spec s) as (D1 & D2 & D3 & _).
  destruct (disconnect s) as [so ur cd cg rt pi lp c1 c2 c3 c4 re].
  cbn in D1, D2, D3. subst so cd cg.
  destruct W as (_ & _ & _ & D). cbn in D.
  destruct c as [|m]; cbn; [destruct ur as [u|]; cbn|].
  - split; [reflexivity|]. split; [discriminate|]. split; [|exact D].
    intros sk E. injection E as <-. reflexivity.
  - split; [reflexivity|]. split; [discriminate|]. split; [discriminate|].
    exact D.
  - split; [reflexivity|]. split; [discriminate|]. split; [discriminate|].
    exact D.
Qed.

Lemma wellFormed_hand (m : outbound) (s : service) (sk : WebSocket) :
  socket s = Some sk ->
  wellFormed s -> wellFormed (withSocket (Some (hand m sk)) s).
Proof.
  destruct s as [so ur cd cg rt pi lp c1 c2 c3 c4 re].
  unfold wellFormed. cbn. intros -> (A & B & C & D).
  split; [exact A|]. split; [discriminate|]. split; [|exact D].
  intros sk' E. injection E as <-. cbn. apply C. reflexivity.
Qed.

Lemma wellFormed_timers (s : service) (rt : option timeout)
      (pi lp : option Z) (u : option string) :
  wellFormed s ->
  wellFormed (withReconnectTimeout rt s)
  /\ wellFormed (withPingInterval pi s)
  /\ wellFormed (withLastPingTime lp s)
  /\ wellFormed (withUrl u s).
Proof.
  destruct s as [so ur cd cg rt' pi' lp' c1 c2 c3 c4 re].
  intros H. repeat split; apply H.
Qed.

Lemma wellFormed_send (m : outbound) (o : outcome) (s : service) :
  wellFormed s -> wellFormed (fst (send m o s)).
Proof.
  intros H. unfold send. destruct (socket s) as [sk|] eqn:E; [|exact H].
  destruct (state sk), o; try exact H. cbn [fst].
  apply wellFormed_hand; assumption.
Qed.

Lemma wellFormed_pingIntervalFires (now : Z) (o c : outcome) (s : service) :
  wellFormed s -> wellFormed (pingIntervalFires now o c s).
Proof.
  intros H. unfold pingIntervalFires.
  pose proof (wellFormed_timers s None (Some (now + 30000)) None None H)
    as (_ & H0 & _).
  set (s0 := withPingInterval (Some (now + 30000)) s) in *. clearbody s0.
  destruct (socket s0) as [sk|] eqn:E; [|exact H0].
  destruct (state sk), o; try exact H0.
  pose proof (wellFormed_hand ping s0 sk E H0) as H1.
  cbv zeta. destruct (unresponsive now _); [|exact H1].
  apply wellFormed_connect, wellFormed_disconnect, H1.
Qed.

Lemma wellFormed_opened (now : Z) (s : service) (sk : WebSocket) :
  socket s = Some sk ->
  handlers sk = true ->
  wellFormed s ->
  wellFormed (fst (handleOpen now (withSocket (Some (setReadyState WS_OPEN sk)) s))).
Proof.
  destruct s as [so ur cd cg rt pi lp c1 c2 c3 c4 re].
  unfold wellFormed. cbn. intros -> Hh (_ & _ & _ & D).
  split; [reflexivity|]. split; [discriminate|]. split; [|exact D].
  intros sk' E. injection E as <-. exact Hh.
Qed.

Lemma wellFormed_closed (now : Z) (s : service) (sk : WebSocket) :
  socket s = Some sk ->
  handlers sk = true ->
  wellFormed s ->
  wellFormed (fst (handleClose now (withSocket (Some (setReadyState WS_CLOSED sk)) s))).
Proof.
  destruct s as [so ur cd cg rt pi lp c1 c2 c3 c4 re].
  unfold wellFormed. cbn. intros -> Hh (_ & _ & _ & D).
  split; [reflexivity|]. split; [discriminate|]. split; [|exact D].
  intros sk' E. injection E as <-. exact Hh.
Qed.

Lemma wellFormed_handleMessage (now : Z) (m : inbound) (s : service) :
  wellFormed s -> wellFormed (fst (handleMessage now m s)).
Proof.
  intros H. unfold handleMessage. destruct (typeOf m) as [ty|]; [|exact H].
  destruct (ty =? WS_MESSAGE_TYPES.PONG)%string; [|exact H].
  apply (wellFormed_timers s None None (Some now) None H).
Qed.

Lemma wellFormed_checkConnection (now : Z) (c : outcome) (s : service) :
  wellFormed s -> wellFormed (checkConnection now c s).
Proof.
  intros H. unfold checkConnection.
  destruct (connected s && negb (isOpen s)); [|exact H].
  apply wellFormed_connect.
  destruct s as [so ur cd cg rt pi lp c1 c2 c3 c4 re].
  destruct H as (A & B & C & D). cbn in A, B, C, D.
  unfold wellFormed. cbn. split; [reflexivity|]. split; [|split; assumption].
  intros G. apply B. rewrite G. apply orb_true_r.
Qed.

Lemma wellFormed_init (now : Z) (c : outcome) (u : string) (s : service) :
  wellFormed s -> wellFormed (init now c u s).
Proof.
  intros H. unfold init.
  pose proof (wellFormed_timers s None None None (Some u) H) as (_ & _ & _ & H1).
  set (s1 := withUrl (Some u) s) in *. clearbody s1.
  destruct (socket s1) as [sk|]; [destruct (socketUrl sk =? u)%string|];
    try exact H1; apply wellFormed_connect, H1.
Qed.

Lemma wellFormed_step (o : occurrence) (s : service) :
  wellFormed s -> wellFormed (step o s).
Proof.
  intros H. unfold step. destruct (what o).
  - apply wellFormed_init, H.
  - apply wellFormed_connect, H.
  - apply wellFormed_disconnect, H.
  - apply wellFormed_checkConnection, H.
  - apply wellFormed_send, H.
  - destruct (socket s) as [sk|] eqn:E; [|exact H].
    destruct (handlers sk) eqn:Hh; [|exact H].
    apply wellFormed_opened; assumption.
  - destruct (socket s) as [sk|] eqn:E; [|exact H].
    destruct (handlers sk) eqn:Hh; [|exact H].
    apply wellFormed_handleMessage, H.
  - destruct (socket s) as [sk|] eqn:E; [|exact H].
    destruct (handlers sk) eqn:Hh; exact H.
  - destruct (socket s) as [sk|] eqn:E; [|exact H].
    destruct (handlers sk) eqn:Hh; [|exact H].
    apply wellFormed_closed; assumption.
  - destruct (pingInterval s); [|exact H].
    apply wellFormed_pingIntervalFires, H.
  - destruct (fires (at_time o) (reconnectTimeout s)); [|exact H].
    unfold reconnectTimeoutFires. apply wellFormed_connect.
    apply (wellFormed_timers s (fired (reconnectTimeout s)) None None None H).
Qed.

(** X13.  The fields of the service stay consistent.  After any
    sequence of method calls, socket events and timer runs from the
    class as loaded, at any times and whatever the platform answers:
    the service is never both connected and connecting; whenever one of
    the two flags is up it holds a socket; the socket it holds has its
    handlers attached; and every socket it let go of had its handlers
    removed and was not left open. *)
Theorem service_stays_well_formed (os : list occurrence) :
  wellFormed (steps os initial).
Proof.
  assert (G : forall s, wellFormed s -> wellFormed (steps os s)).
  { induction os as [|o os IH]; intros s H; [exact H|].
    cbn [steps]. apply IH, wellFormed_step, H. }
  apply G. unfold wellFormed, initial. cbn.
  split; [reflexivity|]. split; [discriminate|]. split; [discriminate|].
  constructor.
Qed.

(** X14.  [init] with another endpoint, on a service that is not in
    the middle of connecting, lets go of the socket it holds - handlers
    removed, asked to close if it was open - and leaves the service
    connecting on a fresh socket to the new endpoint, with no timer
    pending and nothing lost of what was transmitted. *)
Theorem init_switches_endpoint (now : Z) (u : string) (s : service)
        (old : WebSocket) :
  u <> "" ->
  connecting s = false ->
  socket s = Some old ->
  socketUrl old <> u ->
  let s' := init now Resolves u s in
  socket s' = Some (mkWebSocket u WS_CONNECTING true [])
  /\ url s' = Some u
  /\ connected s' = false
  /\ connecting s' = true
  /\ pingInterval s' = None
  /\ reconnectTimeout s' = None
  /\ retired s'
     = mkWebSocket (socketUrl old)
                   (match state old with WS_OPEN => WS_CLOSING | st => st end)
                   false (handed old) :: retired s
  /\ transmitted s' = transmitted s.
Proof.
  intros N C E D.
  destruct s as [so ur cd cg rt pi lp c1 c2 c3 c4 re]. cbn in C, E. subst.
  unfold init. cbn.
  destruct (String.eqb_spec (socketUrl old) u) as [F|_]; [contradiction|].
  unfold connect, noUrl. cbn.
  destruct (String.eqb_spec u "") as [F|_]; [contradiction|].
  unfold transmitted. cbn. repeat split.
  rewrite map_app, concat_app. cbn. rewrite !app_nil_r. reflexivity.
Qed.

Lemma init_switches_endpoint_witness :
  socket (openSince 1700000000000)
  = Some (mkWebSocket endpoint WS_OPEN true [])
  /\ socket (init 1700000001000 Resolves "wss://other.example/ws"
                  (openSince 1700000000000))
     = Some (mkWebSocket "wss://other.example/ws" WS_CONNECTING true [])
  /\ retired (init 1700000001000 Resolves "wss://other.example/ws"
                   (openSince 1700000000000))
     = [mkWebSocket endpoint WS_CLOSING false []].
Proof.
  assert (N : "wss://other.example/ws" <> "") by discriminate.
  assert (D : socketUrl (mkWebSocket endpoint WS_OPEN true [])
              <> "wss://other.example/ws") by discriminate.
  destruct (init_switches_endpoint
              1700000001000 "wss://other.example/ws" (openSince 1700000000000)
              (mkWebSocket endpoint WS_OPEN true []) N eq_refl eq_refl D)
    as (A & _ & _ & _ & _ & _ & R & _).
  split; [reflexivity|split; [exact A|exact R]].
Defined.

(** X15.  [init] with another endpoint while a connection attempt is
    under way does not redirect it: only the [url] field changes, and
    when the socket of that attempt opens the service is connected on
    it, to the old endpoint, while [url] names the new one. *)
Theorem init_while_connecting_keeps_old_socket (now t : Z) (c o : outcome)
        (u : string) (s : service) (old : WebSocket) :
  connecting s = true ->
  socket s = Some old ->
  handlers old = true ->
  init now c u s = withUrl (Some u) s
  /\ let s' := step (mkOccurrence t c o socketOpened) (init now c u s) in
     connected s' = true
     /\ connecting s' = false
     /\ socket s' = Some (setReadyState WS_OPEN old)
     /\ url s' = Some u.
Proof.
  intros C E Hh.
  destruct s as [so ur cd cg rt pi lp c1 c2 c3 c4 re]. cbn in C, E. subst.
  assert (I : init now c u (mkService (Some old) ur cd true rt pi lp c1 c2 c3 c4 re)
              = withUrl (Some u)
                  (mkService (Some old) ur cd true rt pi lp c1 c2 c3 c4 re)).
  { unfold init, connect. cbn. destruct (socketUrl old =? u)%string; reflexivity. }
  split; [exact I|]. rewrite I. unfold step. cbn. rewrite Hh. cbn.
  repeat split.
Qed.

Lemma init_while_connecting_keeps_old_socket_witness :
  connecting reconnecting = true
  /\ socket (step (mkOccurrence 1700000000200 Resolves Resolves socketOpened)
                  (init 1700000000100 Resolves "wss://other.example/ws" reconnecting))
     = Some (mkWebSocket endpoint WS_OPEN true [])
  /\ url (step (mkOccurrence 1700000000200 Resolves Resolves socketOpened)
               (init 1700000000100 Resolves "wss://other.example/ws" reconnecting))
     = Some "wss://other.example/ws".
Proof.
  destruct (init_while_connecting_keeps_old_socket
              1700000000100 1700000000200 Resolves Resolves
              "wss://other.example/ws" reconnecting
              (mkWebSocket endpoint WS_CONNECTING true [])
              eq_refl eq_refl eq_refl) as (_ & _ & _ & A & B).
  split; [reflexivity|split; [exact A|exact B]].
Defined.

(** X25.  [checkConnection] repairs a stale session and leaves a live
    one alone.  When the service believes it is connected but its
    socket is not open, the call lets go of that socket and leaves the
    service connecting on a fresh socket to the same endpoint, with
    nothing lost of what was transmitted; when [isConnected] answers
    true, or the service does not believe it is connected, the call
    changes nothing. *)
Theorem checkConnection_repairs_stale_session
        (now : Z) (c : outcome) (s : service) (u : string) :
  url s = Some u ->
  u <> "" ->
  connecting s = false ->
  (connected s = true ->
   isOpen s = false ->
   connected (checkConnection now Resolves s) = false
   /\ connecting (checkConnection now Resolves s) = true
   /\ socket (checkConnection now Resolves s)
      = Some (mkWebSocket u WS_CONNECTING true [])
   /\ reconnectTimeout (checkConnection now Resolves s) = None
   /\ transmitted (checkConnection now Resolves s) = transmitted s)
  /\ (isConnected s = true \/ connected s = false ->
      checkConnection now c s = s).
Proof.
  intros U N C. split.
  - intros Cd O. unfold checkConnection. rewrite Cd, O. cbn [negb andb].
    assert (C1 : connecting (withConnected false s) = false) by exact C.
    assert (U1 : url (withConnected false s) = Some u) by exact U.
    destruct (connect_spec now (withConnected false s) u C1 U1 N)
      as (A & B & D & _ & E & F).
    repeat split; assumption.
  - unfold checkConnection, isConnected. intros [H| ->]; [|reflexivity].
    apply andb_true_iff in H as (-> & ->). reflexivity.
Qed.

Lemma checkConnection_repairs_stale_session_witness :
  url stale = Some endpoint
  /\ endpoint <> ""
  /\ socket (checkConnection 1700000050000 Resolves stale)
     = Some (mkWebSocket endpoint WS_CONNECTING true [])
  /\ checkConnection 1700000050000 Resolves (openSince 1700000000000)
     = openSince 1700000000000.
Proof.
  assert (N : endpoint <> "") by discriminate.
  destruct (checkConnection_repairs_stale_session
              1700000050000 Resolves stale endpoint eq_refl N eq_refl)
    as (A & _).
  destruct (A eq_refl eq_refl) as (_ & _ & S & _).
  split; [reflexivity|split; [exact N|split; [exact S|reflexivity]]].
Defined.

End WebSocketMoreFacts.

(** ** More on the app provider *)
Section AppContextMoreFacts.
Import WebSocketService AppContext Samples.Conversation.

Lemma to_int_parses (z : Z) :
  NilZero.int_of_string (toString z) = Some (Z.to_int z).
Proof.
  unfold toString. apply NilZero.isi; destruct z; cbn; try discriminate;
    intros E; injection E as E; exact (DecimalPos.Unsigned.to_uint_nonnil _ E).
Qed.

Lemma toString_inj (a b : Z) : toString a = toString b -> a = b.
Proof.
  intros E. apply DecimalZ.to_int_inj.
  pose proof (to_int_parses a) as A. rewrite E, to_int_parses in A.
  now injection A.
Qed.

Lemma toString_nonempty (a : Z) : toString a <> "".
Proof.
  intros E. pose proof (to_int_parses a) as A. rewrite E in A. discriminate.
Qed.

Lemma header_retext (target newText : string) (m : Message) :
  header (retext target newText m) = header m.
Proof. unfold retext. destruct (id m =? target)%string; reflexivity. Qed.

Lemma map_header_retext (target newText : string) (l : list Message) :
  map header (map (retext target newText) l) = map header l.
Proof.
  rewrite map_map. apply map_ext. intros m. apply header_retext.
Qed.

(** One operation keeps the log it found, texts apart, and appends. *)
Lemma act_appends Date_now o (op : operation) (w : world) :
  exists added,
    map header (messages (app (act Date_now o op w)))
    = map header (messages (app w)) ++ added.
Proof.
  destruct w as [[io wc st ms pa pm sp lt] sv].
  destruct op as [[audioBase64 transcription|text]| |m| | |]; cbn.
  - unfold sendAudioToServer. cbn. destruct wc; cbn.
    + destruct (send _ o sv) as [sv' b]. cbn. eexists. apply map_app.
    + eexists.
      rewrite !map_app, !map_header_retext, <- app_assoc.
      reflexivity.
  - unfold sendTextToServer. cbn. destruct wc; cbn.
    + destruct (send _ o sv) as [sv' b]. cbn. eexists. apply map_app.
    + eexists. rewrite !map_app, <- app_assoc. reflexivity.
  - unfold processPendingMessages. cbn. destruct wc; cbn.
    + destruct pm as [|p pm]; cbn.
      * exists []. rewrite app_nil_r. reflexivity.
      * destruct (send _ o sv) as [sv' b]. cbn. eexists. apply map_app.
    + exists []. rewrite app_nil_r. reflexivity.
  - destruct m as [|text audio tr mid| |message|ty]; cbn;
      try (exists []; rewrite app_nil_r; reflexivity).
    + destruct tr as [tr|], mid as [mid|]; cbn;
        try (eexists; apply map_app).
      destruct (negb (tr =? "")%string && negb (mid =? "")%string); cbn;
        eexists; rewrite map_app, ?map_header_retext; reflexivity.
    + eexists. apply map_app.
  - unfold whenConnected. cbn. eexists. apply map_app.
  - unfold whenDisconnected. cbn. destruct io; cbn.
    + eexists. apply map_app.
    + exists []. rewrite app_nil_r. reflexivity.
  - unfold whenError. cbn. eexists. apply map_app.
Qed.

(** X16.  The conversation log only grows.  Whatever the user submits,
    whatever frames arrive, however the link goes up and down and the
    queue is drained, the messages logged before are all still there,
    in the same order and with the same id, author, type and timestamp
    (only the text of a message may have changed), followed by the
    messages added since. *)
Theorem log_only_grows (ops : list ((nat -> Z) * outcome * operation))
        (w : world) :
  exists added,
    map header (messages (app (actAll ops w)))
    = map header (messages (app w)) ++ added.
Proof.
  revert w. induction ops as [|[[Date_now o] op] ops IH]; intros w.
  - exists []. rewrite app_nil_r. reflexivity.
  - cbn [actAll]. destruct (IH (act Date_now o op w)) as (a2 & E2).
    destruct (act_appends Date_now o op w) as (a1 & E1).
    exists (a1 ++ a2). rewrite E2, E1, app_assoc. reflexivity.
Qed.

(** X17.  A reply names the message it answers.  After a capture was
    submitted while connected, the reply that carries a transcript and
    the id [sendAudioToServer] returned puts the transcript on the
    user's message (and on any older message with that id), sets
    [lastTranscription], appends the assistant's text and ends the
    processing state. *)
Theorem reply_puts_transcript_on_submitted_message
        (Date_now Date_now' : nat -> Z) (o : outcome)
        (audioBase64 transcription : string) (w : world)
        (text tr : string) (audio : option string) :
  wsConnected (app w) = true ->
  tr <> "" ->
  let mid := toString (Date_now 1%nat) in
  let sent := sendAudioToServer Date_now o audioBase64 transcription w in
  let c := handleWebSocketMessage Date_now'
             (aiResponse text audio (Some tr) (Some mid)) (app (fst sent)) in
  snd sent = Some mid
  /\ messages c
     = map (retext mid tr) (messages (app w))
       ++ [mkMessage mid tr true "normal" (Date_now 2%nat);
           mkMessage (toString (Date_now' 0%nat)) text false "normal"
                     (Date_now' 1%nat)]
  /\ lastTranscription c = tr
  /\ isProcessingAudio c = false
  /\ isSpeaking c = truthy audio
  /\ pendingMessages c = pendingMessages (app w).
Proof.
  intros On N mid sent c. subst sent c.
  destruct w as [[io wc st ms pa pm sp lt] sv]. cbn in On. subst wc.
  unfold sendAudioToServer. cbn.
  destruct (send _ o sv) as [sv' b]. cbn.
  destruct (String.eqb_spec tr "") as [F|_]; [contradiction|].
  destruct (String.eqb_spec mid "") as [F|_];
    [exfalso; exact (toString_nonempty _ F)|].
  cbn. split; [reflexivity|]. split; [|repeat split].
  rewrite map_app, <- app_assoc. cbn. unfold retext at 2. cbn.
  fold mid. rewrite String.eqb_refl. reflexivity.
Qed.

Lemma reply_puts_transcript_on_submitted_message_witness :
  wsConnected (app (mkWorld (setWsConnected true AppContext.initial)
                            (openSince 1700000000000))) = true
  /\ map text
         (messages
            (handleWebSocketMessage
               (ticking 1700000009000)
               (aiResponse "Done" None (Some "Turn on the lights.")
                           (Some (toString (ticking 1700000005000 1%nat))))
               (app (fst (sendAudioToServer
                            (ticking 1700000005000) Resolves "UklGRg==" ""
                            (mkWorld (setWsConnected true AppContext.initial)
                                     (openSince 1700000000000)))))))
     = ["Turn on the lights."; "Done"].
Proof.
  assert (N : "Turn on the lights." <> "") by discriminate.
  destruct (reply_puts_transcript_on_submitted_message
              (ticking 1700000005000) (ticking 1700000009000) Resolves
              "UklGRg==" ""
              (mkWorld (setWsConnected true AppContext.initial)
                       (openSince 1700000000000))
              "Done" "Turn on the lights." None eq_refl N)
    as (_ & M & _).
  split; [reflexivity|]. rewrite M. reflexivity.
Defined.

(** X18.  Ids are as distinct as the clock readings behind them.  A
    submission made offline appends the user's message and the offline
    notice, with the ids and timestamps the clock gave; the two ids are
    the same exactly when the clock gave the same reading at the two
    appends. *)
Theorem offline_ids_collide_iff_clock_stands
        (Date_now : nat -> Z) (o : outcome) (r : submission) (w : world) :
  wsConnected (app w) = false ->
  map header (messages (app (submit Date_now o r w)))
  = map header (messages (app w))
    ++ [(toString (Date_now 1%nat), true, "normal", Date_now 2%nat);
        (toString (Date_now 3%nat), false, "system", Date_now 4%nat)]
  /\ (toString (Date_now 1%nat) = toString (Date_now 3%nat)
      <-> Date_now 1%nat = Date_now 3%nat).
Proof.
  intros Off. split; [|split; [apply toString_inj|intros ->; reflexivity]].
  destruct w as [[io wc st ms pa pm sp lt] sv]. cbn in Off. subst wc.
  destruct r as [audioBase64 transcription|text0]; cbn.
  - unfold sendAudioToServer. cbn.
    rewrite !map_app, !map_header_retext, <- app_assoc. reflexivity.
  - unfold sendTextToServer. cbn.
    rewrite !map_app, <- app_assoc. reflexivity.
Qed.

Lemma offline_ids_collide_iff_clock_stands_witness :
  wsConnected (app offline) = false
  /\ map header
         (messages (app (submit (ticking 1700000005000) Resolves
                                (submitText "turn on lights") offline)))
     = [("1700000005001", true, "normal", 1700000005002);
        ("1700000005003", false, "system", 1700000005004)].
Proof.
  split; [reflexivity|].
  exact (proj1 (offline_ids_collide_iff_clock_stands
                  (ticking 1700000005000) Resolves
                  (submitText "turn on lights") offline eq_refl)).
Defined.

Lemma send_refused (m : outbound) (o : outcome) (sv : service) :
  isOpen sv = false \/ o <> Resolves -> fst (send m o sv) = sv.
Proof.
  unfold send, isOpen. destruct (socket sv) as [sk|]; [|reflexivity].
  destruct (state sk), o; try reflexivity.
  intros [F|F]; [discriminate|contradiction].
Qed.

(** X19.  A submission made while the provider believes it is connected
    is never queued.  The user's message is logged; if the socket is
    open and takes the frame, the frame handed over carries the
    submission, the user of the settings, the timestamp read while it
    was built and the id of the user's message; if the socket is not
    open, or throws, the service is untouched: the submission is
    neither sent nor kept for later. *)
Theorem connected_submission_sent_or_dropped
        (Date_now : nat -> Z) (o : outcome) (r : submission) (w : world) :
  wsConnected (app w) = true ->
  let w' := submit Date_now o r w in
  pendingMessages (app w') = pendingMessages (app w)
  /\ map header (messages (app w'))
     = map header (messages (app w))
       ++ [(toString (Date_now 1%nat), true, "normal", Date_now 2%nat)]
  /\ (isOpen (ws w) = true ->
      o = Resolves ->
      transmitted (ws w')
      = transmitted (ws w) ++ [frameOf (settings (app w)) (Date_now, r)])
  /\ (isOpen (ws w) = false \/ o <> Resolves -> ws w' = ws w).
Proof.
  intros On. destruct w as [[io wc st ms pa pm sp lt] sv]. cbn in On. subst wc.
  destruct r as [audioBase64 transcription|text0]; cbn.
  - unfold sendAudioToServer. cbn.
    set (m := audioMessage _ _ _ _ _ _ _).
    pose proof (send_open m sv) as SO. pose proof (send_refused m o sv) as SR.
    destruct (send m o sv) as [sv' b] eqn:E. cbn.
    split; [reflexivity|]. split; [apply map_app|]. split.
    + intros O ->. rewrite E in SO. apply SO, O.
    + exact SR.
  - unfold sendTextToServer. cbn.
    set (m := textMessage _ _ _ _ _ _).
    pose proof (send_open m sv) as SO. pose proof (send_refused m o sv) as SR.
    destruct (send m o sv) as [sv' b] eqn:E. cbn.
    split; [reflexivity|]. split; [apply map_app|]. split.
    + intros O ->. rewrite E in SO. apply SO, O.
    + exact SR.
Qed.

Lemma connected_submission_sent_or_dropped_witness :
  wsConnected (app believing) = true
  /\ pendingMessages (app (submit (ticking 1700000005000) Resolves
                                  (submitText "turn on lights") believing))
     = []
  /\ ws (submit (ticking 1700000005000) Resolves
                (submitText "turn on lights") believing)
     = stale.
Proof.
  destruct (connected_submission_sent_or_dropped
              (ticking 1700000005000) Resolves (submitText "turn on lights")
              believing eq_refl) as (P & _ & _ & L).
  split; [reflexivity|split; [exact P|apply L; left; reflexivity]].
Defined.

Lemma lastHundred_split (l : list Message) :
  exists dropped,
    l = dropped ++ lastHundred l
    /\ List.length (lastHundred l) = Nat.min 100 (List.length l).
Proof.
  exists (firstn (List.length l - 100)%nat l). unfold lastHundred. split.
  - symmetry. apply firstn_skipn.
  - rewrite length_skipn. lia.
Qed.

Lemma lastHundred_short (l : list Message) :
  (List.length l <= 100)%nat -> lastHundred l = l.
Proof.
  intros H. unfold lastHundred.
  replace (List.length l - 100)%nat with 0%nat by lia. reflexivity.
Qed.

(** X20.  What a restart brings back.  Mounting the provider on what
    the save effects left of a state [c] restores the settings and the
    whole offline queue; the conversation comes back as its last 100
    messages, in order (all of it when it had no more than 100); the
    provider starts disconnected and not processing; and the storage is
    left holding the same values. *)
Theorem restart_restores_queue_and_recent_log (c : context) :
  let c' := fst (mount (saved c)) in
  settings c' = settings c
  /\ pendingMessages c' = pendingMessages c
  /\ (exists dropped,
        messages c = dropped ++ messages c'
        /\ List.length (messages c') = Nat.min 100 (List.length (messages c)))
  /\ ((List.length (messages c) <= 100)%nat -> messages c' = messages c)
  /\ wsConnected c' = false
  /\ isProcessingAudio c' = false
  /\ snd (mount (saved c)) = saved c.
Proof.
  destruct c as [io wc st ms pa pm sp lt]. cbn.
  split; [reflexivity|]. split; [reflexivity|].
  split; [apply lastHundred_split|]. split; [apply lastHundred_short|].
  split; [reflexivity|]. split; [reflexivity|].
  unfold saved. cbn. f_equal. f_equal. apply lastHundred_short.
  rewrite length_skipn. lia.
Qed.

End AppContextMoreFacts.

(** ** More on the audio service *)
Section AudioServiceMoreFacts.
Import AudioService Samples.Recording.

Lemma idle_onData t f s :
  isRecording s = false ->
  isRecording (onData t f s) = false
  /\ silenceCalls (onData t f s) = silenceCalls s.
Proof.
  intros R. unfold onData. destruct (listener s) as [[th cb]|]; [|auto].
  destruct s as [r i ro st lt li n]. cbn in *. auto.
Qed.

Lemma idle_elapse t s :
  isRecording s = false ->
  isRecording (elapse t s) = false
  /\ silenceCalls (elapse t s) = silenceCalls s.
Proof.
  intros R. unfold elapse. destruct (fires t (silenceTimer s)); [|auto].
  unfold silenceTimerFires.
  destruct s as [r i ro st lt li n]. cbn in *. subst r.
  destruct li as [[th [cb|]]|]; cbn; auto.
Qed.

Lemma idle_feed (frames : list (Z * frame)) :
  forall s,
    isRecording s = false ->
    isRecording (feed frames s) = false
    /\ silenceCalls (feed frames s) = silenceCalls s.
Proof.
  induction frames as [|[t f] frames IH]; intros s R; cbn [feed]; [auto|].
  destruct (idle_elapse t s R) as (R1 & N1).
  destruct (idle_onData t f _ R1) as (R2 & N2).
  destruct (IH _ R2) as (R3 & N3).
  split; [exact R3|congruence].
Qed.

Lemma stopRecording_idle (s : service) :
  isRecording (stopRecording s) = false
  /\ silenceCalls (stopRecording s) = silenceCalls s
  /\ listener (stopRecording s) = listener s
  /\ silenceTimer (stopRecording s)
     = (if isRecording s then None else silenceTimer s).
Proof.
  destruct s as [r i ro st lt li n]. unfold stopRecording. cbn.
  destruct r; cbn; [destruct st; cbn|]; repeat split.
Qed.

(** X21.  Once [stopRecording] has run, the silence callback is not
    called again: whatever frames the recorder still delivers and
    however much time passes, the timers they set find the recording
    stopped and call nothing. *)
Theorem no_silence_callback_after_stop (frames : list (Z * frame)) (t : Z)
        (s : service) :
  let s' := elapse t (feed frames (stopRecording s)) in
  silenceCalls s' = silenceCalls s /\ isRecording s' = false.
Proof.
  destruct (stopRecording_idle s) as (R & N & _).
  destruct (idle_feed frames _ R) as (R1 & N1).
  destruct (idle_elapse t _ R1) as (R2 & N2).
  cbv zeta. split; [congruence|exact R2].
Qed.

(** X22.  The [data] listener outlives the recording it was set for.
    After a recording with silence detection has been stopped, a
    recording started without it still runs the earlier callback:
    2000 ms after a frame the callback of the first recording is
    called, and if it is the one that calls [stopRecording] the second
    recording is stopped. *)
Theorem earlier_callback_runs_in_later_recording
        (o1 o2 : options) (cb : callback) (s : service) (t : Z) (f : frame) :
  detectSilence o1 = true ->
  onSilenceDetected o1 = Some cb ->
  detectSilence o2 = false ->
  let s2 := startRecording o2 (stopRecording (startRecording o1 s)) in
  let s3 := elapse (t + 2000) (onData t f s2) in
  isRecording s2 = true
  /\ silenceCalls s3 = S (silenceCalls s)
  /\ (cb = callsStopRecording -> isRecording s3 = false).
Proof.
  intros D C D2.
  destruct (startRecording_listening o1 cb s D C) as (R & L & _ & N).
  destruct (stopRecording_idle (startRecording o1 s)) as (R1 & N1 & L1 & T1).
  rewrite R in T1. rewrite L in L1. rewrite N in N1.
  set (s1 := stopRecording (startRecording o1 s)) in *. clearbody s1.
  destruct s1 as [r i ro st lt li n]. cbn in R1, N1, L1, T1. subst.
  unfold startRecording. rewrite D2. cbn.
  unfold elapse, fires, onData. cbn.
  destruct (Z.leb_spec (t + 2000) (t + 2000)) as [_|F]; [|lia].
  unfold silenceTimerFires. cbn. split; [reflexivity|].
  destruct cb; cbn; split; try reflexivity; discriminate.
Qed.

Lemma earlier_callback_runs_in_later_recording_witness :
  detectSilence handsFree = true
  /\ detectSilence pushToTalk = false
  /\ isRecording
       (elapse 9000
          (onData 7000 loud
             (startRecording pushToTalk
                (stopRecording (startRecording handsFree AudioService.initial)))))
     = false.
Proof.
  destruct (earlier_callback_runs_in_later_recording
              handsFree pushToTalk callsStopRecording AudioService.initial
              7000 loud eq_refl eq_refl eq_refl) as (_ & _ & S).
  split; [reflexivity|split; [reflexivity|exact (S eq_refl)]].
Defined.

Lemma hearAll_recording (es : list speech) :
  forall s, isRecording (hearAll es s) = isRecording s.
Proof.
  induction es as [|e es IH]; intros s; cbn [hearAll]; [reflexivity|].
  rewrite IH. destruct s as [r i ro st lt li n].
  destruct e as [| |[[|h v]|]|]; reflexivity.
Qed.

Lemma hearAll_nothing (es : list speech) :
  Forall bringsNothing es ->
  forall s, lastTranscription (hearAll es s) = lastTranscription s.
Proof.
  induction 1 as [|e es B _ IH]; intros s; cbn [hearAll]; [reflexivity|].
  rewrite IH. destruct e as [| |[[|h v]|]|]; try reflexivity; destruct B.
Qed.

Lemma hearAll_app (es1 es2 : list speech) (s : service) :
  hearAll (es1 ++ es2) s = hearAll es2 (hearAll es1 s).
Proof.
  revert s. induction es1 as [|e es1 IH]; intros s; cbn; [reflexivity|apply IH].
Qed.

Lemma startRecording_fresh (o : options) (s : service) :
  isRecording (startRecording o s) = true
  /\ lastTranscription (startRecording o s) = "".
Proof.
  unfold startRecording. destruct s as [r i ro st lt li n].
  unfold stopRecording. cbn.
  destruct (detectSilence o), (onSilenceDetected o), r; cbn;
    try destruct st; cbn; split; reflexivity.
Qed.

(** X23.  The transcription [stopRecording] returns is the first
    hypothesis of the last result the recogniser delivered with any
    hypothesis in it, whatever came before and as long as the
    recogniser was not restarted since; and a recording during which
    no hypothesis arrived returns the empty transcription, not the one
    of an earlier recording. *)
Theorem stop_returns_last_heard (o : options) (s : service)
        (before after : list speech) (first : string) (others : list string)
        (audioBase64 : string) :
  Forall bringsNothing after ->
  stopRecordingResult audioBase64
    (hearAll (before ++ onSpeechResults (Some (first :: others)) :: after)
             (startRecording o s))
  = Some (audioBase64, first)
  /\ stopRecordingResult audioBase64 (hearAll after (startRecording o s))
     = Some (audioBase64, "").
Proof.
  intros B. destruct (startRecording_fresh o s) as (R & T).
  unfold stopRecordingResult. rewrite !hearAll_recording, R. cbn [negb].
  split; f_equal; f_equal.
  - rewrite hearAll_app. cbn [hearAll hear handleSpeechResults].
    rewrite (hearAll_nothing after B). reflexivity.
  - rewrite (hearAll_nothing after B). exact T.
Qed.

Lemma stop_returns_last_heard_witness :
  Forall bringsNothing [onSpeechResults (Some []); onSpeechEnd]
  /\ stopRecordingResult "UklGRg=="
       (hearAll [onSpeechStart; onSpeechResults (Some ["turn on"]);
                 onSpeechResults (Some ["turn on lights"; "turn on flights"]);
                 onSpeechResults (Some []); onSpeechEnd]
                (startRecording handsFree AudioService.initial))
     = Some ("UklGRg==", "turn on lights").
Proof.
  assert (B : Forall bringsNothing [onSpeechResults (Some []); onSpeechEnd])
    by (repeat constructor).
  split; [exact B|].
  exact (proj1 (stop_returns_last_heard
                  handsFree AudioService.initial
                  [onSpeechStart; onSpeechResults (Some ["turn on"])]
                  [onSpeechResults (Some []); onSpeechEnd]
                  "turn on lights" ["turn on flights"] "UklGRg==" B)).
Defined.

End AudioServiceMoreFacts.

(** ** More on the native audio module *)
Section AudioModuleMoreFacts.
Import AudioModule.

Lemma recorded_file (isSilence : list Z -> Z -> bool)
      (reads : list (list Z * Z)) :
  fst (writeAudioDataToFile isSilence reads)
  = List.concat
      (map (fun r => firstn (Z.to_nat (snd r)) (fst r))
           (filter (fun r => 0 <? snd r) reads)).
Proof.
  induction reads as [|[buffer read] reads IH]; [reflexivity|].
  cbn [writeAudioDataToFile filter fst snd].
  destruct (writeAudioDataToFile isSilence reads) as [file events].
  cbn [fst] in IH. subst file.
  destruct (0 <? read); reflexivity.
Qed.



End AudioModuleMoreFacts.
